(** * Golden Dawn Tarot service

    A shallow embedding of [src/main.py]: the card and spread catalogs, the
    draw engine, the interpretation formatter, the reading store and the two
    reading endpoints, followed by the properties of the reading pipeline.

    Conventions.
    - A Python [str] is a [string], one byte per character; a Python [int]
      is a [Z]; list positions and lengths are [nat].
    - A model class of pydantic is a record inside a module of its name, so
      that fields keep their names ([TarotCard.name], [TarotSpread.name]).
    - Code that can raise returns a [result]; code that also touches the
      random source, the clock or the file system lives in the monad [M] over
      the state [World].
    - What the Python runtime does and the source does not define
      ([str(e)], [json.dump], [json.load]) is the interface [PyRuntime].
    - Logging, the routing of requests and the endpoints that only list
      the catalogs are left out. *)

From Stdlib Require Import ZArith Ascii String Decimal DecimalZ DecimalPos.
From stdpp Require Import gmap strings list fin_maps.

Local Open Scope string_scope.
Local Open Scope list_scope.
Set Warnings "-register-all".

(** ** Python values, exceptions, results *)

(** The values that a [Dict[str, Any]] of a reading holds and that JSON
    represents.  A [dict] keeps its insertion order, hence the association
    list. *)
Inductive pyval : Type :=
| PNone
| PBool (b : bool)
| PInt (n : Z)
| PStr (s : string)
| PList (l : list pyval)
| PDict (d : list (string * pyval)).

Definition pydict : Type := list (string * pyval).

(** [d[k] = v]: an existing key keeps its place, a new key goes last. *)
Fixpoint dict_set (k : string) (v : pyval) (d : pydict) : pydict :=
  match d with
  | [] => [(k, v)]
  | (k', v') :: d' =>
      if String.eqb k' k then (k, v) :: d' else (k', v') :: dict_set k v d'
  end.

Definition py_opt_str (o : option string) : pyval :=
  match o with Some s => PStr s | None => PNone end.

Definition py_opt_int (o : option Z) : pyval :=
  match o with Some n => PInt n | None => PNone end.

(** ** Decimal text of an [int] *)

Fixpoint print_uint (u : uint) : list ascii :=
  match u with
  | Nil => []
  | D0 u => "0"%char :: print_uint u
  | D1 u => "1"%char :: print_uint u
  | D2 u => "2"%char :: print_uint u
  | D3 u => "3"%char :: print_uint u
  | D4 u => "4"%char :: print_uint u
  | D5 u => "5"%char :: print_uint u
  | D6 u => "6"%char :: print_uint u
  | D7 u => "7"%char :: print_uint u
  | D8 u => "8"%char :: print_uint u
  | D9 u => "9"%char :: print_uint u
  end.

Definition print_int (n : Z) : list ascii :=
  match Z.to_int n with
  | Pos u => print_uint u
  | Neg u => "-"%char :: print_uint u
  end.

(** [str(n)] *)
Definition str_int (n : Z) : string := string_of_list_ascii (print_int n).

(** The exceptions the service raises or meets. *)
Inductive exn : Type :=
| HTTPException (status_code : Z) (detail : string)
| KeyError (key : string)
| IndexError
| ValueError (msg : string)
| OSError (path : string)
| FileNotFoundError (path : string).

(** The two classes that the [except] clauses of the source name.  Every
    exception above is an instance of [Exception], the [HTTPException] of
    the web framework included; only a [FileNotFoundError] is an instance
    of [FileNotFoundError]. *)
Inductive except_clause : Type :=
| except_Exception
| except_FileNotFoundError.

Definition isinstance (e : exn) (c : except_clause) : bool :=
  match c, e with
  | except_Exception, _ => true
  | except_FileNotFoundError, FileNotFoundError _ => true
  | except_FileNotFoundError, _ => false
  end.

Inductive result (A : Type) : Type :=
| Return (a : A)
| Raise (e : exn).
Arguments Return {A} a.
Arguments Raise {A} e.

(** What the runtime supplies. *)
Class PyRuntime : Type := {
  (** [str(e)] *)
  exc_str : exn -> string;
  (** [json.dump(v, f, indent=2)], as the text written *)
  json_dumps : pyval -> string;
  (** [json.load(f)]; [None] when the text is not a JSON document *)
  json_loads : string -> option pyval
}.

(** ** The state of the world *)

(** What a request finds outside the program: the random source, the
    clock as it stands during the request, and the files. *)
Record World : Type := {
  (** the process-wide random source: its raw draws, in order *)
  entropy : nat -> nat;
  (** how many raw draws were taken so far *)
  taken : nat;
  (** [datetime.now().strftime('%Y%m%d_%H%M%S')] *)
  now_local : string;
  (** [datetime.now(timezone.utc).isoformat()] *)
  now_utc : string;
  (** the file system: path to content *)
  files : gmap string string;
  (** the paths on which [open(path, 'w')] fails *)
  unwritable : gset string
}.

Definition M (A : Type) : Type := World -> result A * World.

Definition ret {A} (a : A) : M A := fun w => (Return a, w).
Definition raise {A} (e : exn) : M A := fun w => (Raise e, w).
Definition bind {A B} (m : M A) (k : A -> M B) : M B :=
  fun w => match m w with
           | (Return a, w') => k a w'
           | (Raise e, w') => (Raise e, w')
           end.
Definition lift {A} (r : result A) : M A := fun w => (r, w).

Declare Scope py_scope.
Delimit Scope py_scope with py.
Notation "x <- m ;; k" := (bind m (fun x => k))
  (at level 100, m at next level, right associativity) : py_scope.
Notation "m ;;; k" := (bind m (fun _ => k))
  (at level 100, right associativity) : py_scope.
Local Open Scope py_scope.

(** [try: body except C1 ...: h1  except C2 ...: h2]: the first clause whose
    class the exception is an instance of handles it; with none, the
    exception goes on. *)
Definition try_except {A} (body : M A)
    (handlers : list (except_clause * (exn -> M A))) : M A :=
  fun w => match body w with
           | (Return a, w') => (Return a, w')
           | (Raise e, w') =>
               match List.find (fun h => isinstance e (fst h)) handlers with
               | Some h => snd h e w'
               | None => (Raise e, w')
               end
           end.

(** ** The [random] module *)

(** The world after [n] more raw draws. *)
Definition ticks (n : nat) (w : World) : World :=
  {| entropy := entropy w; taken := taken w + n;
     now_local := now_local w; now_utc := now_utc w;
     files := files w; unwritable := unwritable w |}.

(** [randbelow(n)] for [n > 0]: the next raw draw, reduced to [0 .. n-1]. *)
Definition randbelow (n : nat) : M nat :=
  fun w => (Return (entropy w (taken w) mod n)%nat, ticks 1 w).

(** [random.choice(seq)] is [seq[randbelow(len(seq))]]. *)
Definition random_choice {A} (seq : list A) : M A :=
  match seq with
  | [] => raise IndexError
  | _ => j <- randbelow (length seq) ;;
         match seq !! j with
         | Some x => ret x
         | None => raise IndexError
         end
  end.

(** [random.randint(a, b)] is [a + randbelow(b - a + 1)]. *)
Definition random_randint (a b : Z) : M Z :=
  j <- randbelow (Z.to_nat (b - a + 1)) ;; ret (a + Z.of_nat j)%Z.

(** The selection loop of [random.sample] over a pool, which is how CPython
    samples a population of up to 21 elements: [k] times, pick a position
    [j] of the pool, output [pool[j]], move the last element of the pool to
    position [j] and shorten the pool by one. *)
Fixpoint sample_pool {A} (k : nat) (pool : list A) : M (list A) :=
  match k with
  | O => ret []
  | S k' =>
      j <- randbelow (length pool) ;;
      match pool !! j, last pool with
      | Some x, Some y =>
          rest <- sample_pool k' (take (length pool - 1) (<[j:=y]> pool)) ;;
          ret (x :: rest)
      | _, _ => raise IndexError
      end
  end.

(** [random.sample(population, k)]: [ValueError] unless
    [0 <= k <= len(population)]. *)
Definition random_sample {A} (population : list A) (k : Z) : M (list A) :=
  if ((0 <=? k) && (k <=? Z.of_nat (length population)))%Z
  then sample_pool (Z.to_nat k) population
  else raise (ValueError "Sample larger than population or is negative").

(** ** Pydantic models *)

Module TarotCard.
Record t : Type := {
  name : string;
  number : option Z;
  suit : option string;
  element : option string;
  meaning_upright : string;
  meaning_reversed : string;
  golden_dawn_correspondence : string;
  hebrew_letter : option string;
  astrological_correspondence : option string;
  tree_of_life_path : option Z
}.

(** [card.dict()] *)
Definition dict (c : t) : pydict :=
  [ ("name", PStr (name c));
    ("number", py_opt_int (number c));
    ("suit", py_opt_str (suit c));
    ("element", py_opt_str (element c));
    ("meaning_upright", PStr (meaning_upright c));
    ("meaning_reversed", PStr (meaning_reversed c));
    ("golden_dawn_correspondence", PStr (golden_dawn_correspondence c));
    ("hebrew_letter", py_opt_str (hebrew_letter c));
    ("astrological_correspondence", py_opt_str (astrological_correspondence c));
    ("tree_of_life_path", py_opt_int (tree_of_life_path c)) ].
End TarotCard.

Module TarotSpread.
Record t : Type := {
  name : string;
  positions : list string;
  description : string;
  card_count : Z
}.
End TarotSpread.

Module TarotReading.
Record t : Type := {
  spread_type : string;
  question : option string;
  cards_drawn : list pydict;
  interpretation : string;
  timestamp : string;
  reading_id : string
}.

(** [reading.dict()] *)
Definition dict (r : t) : pydict :=
  [ ("spread_type", PStr (spread_type r));
    ("question", py_opt_str (question r));
    ("cards_drawn", PList (map PDict (cards_drawn r)));
    ("interpretation", PStr (interpretation r));
    ("timestamp", PStr (timestamp r));
    ("reading_id", PStr (reading_id r)) ].
End TarotReading.

Module ReadingRequest.
Record t : Type := {
  question : option string;
  spread_type : string;
  include_reversed : bool;
  deck_type : string;
  interpretation_style : string;
  user_birth_info : option pydict
}.
End ReadingRequest.

(** ** The card catalog *)

(** The card tables of [GOLDEN_DAWN_DECK], each entry as the [TarotCard]
    that the constructor builds from it in [get_all_cards]: a key the entry
    does not give is [None]. *)
Module Deck.
Import TarotCard.

Definition major_arcana : list TarotCard.t :=
  [ {| name := "The Fool"; number := Some 0%Z; suit := None; element := Some "Air";
       meaning_upright := "New beginnings, innocence, spontaneity, free spirit";
       meaning_reversed := "Recklessness, taken advantage of, inconsistency, foolishness";
       golden_dawn_correspondence := "Path of Aleph, Air element, Uranus";
       hebrew_letter := Some "Aleph"; astrological_correspondence := Some "Uranus";
       tree_of_life_path := Some 11%Z |};
    {| name := "The Magician"; number := Some 1%Z; suit := None; element := Some "Air";
       meaning_upright := "Manifestation, resourcefulness, power, inspired action";
       meaning_reversed := "Manipulation, poor planning, untapped talents";
       golden_dawn_correspondence := "Path of Beth, Mercury, Magus of Power";
       hebrew_letter := Some "Beth"; astrological_correspondence := Some "Mercury";
       tree_of_life_path := Some 12%Z |};
    {| name := "The High Priestess"; number := Some 2%Z; suit := None; element := Some "Water";
       meaning_upright := "Intuition, sacred knowledge, divine feminine, subconscious mind";
       meaning_reversed := "Secrets, disconnected from intuition, withdrawal";
       golden_dawn_correspondence := "Path of Gimel, Moon, Priestess of Silver Star";
       hebrew_letter := Some "Gimel"; astrological_correspondence := Some "Moon";
       tree_of_life_path := Some 13%Z |};
    {| name := "The Empress"; number := Some 3%Z; suit := None; element := Some "Earth";
       meaning_upright := "Femininity, beauty, nature, nurturing, abundance";
       meaning_reversed := "Creative block, dependence on others, smothering";
       golden_dawn_correspondence := "Path of Daleth, Venus, Daughter of Mighty Ones";
       hebrew_letter := Some "Daleth"; astrological_correspondence := Some "Venus";
       tree_of_life_path := Some 14%Z |};
    {| name := "The Emperor"; number := Some 4%Z; suit := None; element := Some "Fire";
       meaning_upright := "Authority, establishment, structure, father figure";
       meaning_reversed := "Domination, excessive control, lack of discipline";
       golden_dawn_correspondence := "Path of Heh, Aries, Son of Morning";
       hebrew_letter := Some "Heh"; astrological_correspondence := Some "Aries";
       tree_of_life_path := Some 15%Z |};
    {| name := "The Hierophant"; number := Some 5%Z; suit := None; element := Some "Earth";
       meaning_upright := "Spiritual wisdom, religious beliefs, conformity, tradition";
       meaning_reversed := "Personal beliefs, freedom, challenging the status quo";
       golden_dawn_correspondence := "Path of Vav, Taurus, Magus of Eternal";
       hebrew_letter := Some "Vav"; astrological_correspondence := Some "Taurus";
       tree_of_life_path := Some 16%Z |};
    {| name := "The Lovers"; number := Some 6%Z; suit := None; element := Some "Air";
       meaning_upright := "Love, harmony, relationships, values alignment";
       meaning_reversed := "Disharmony, imbalance, misaligned values";
       golden_dawn_correspondence := "Path of Zayin, Gemini, Children of Voice";
       hebrew_letter := Some "Zayin"; astrological_correspondence := Some "Gemini";
       tree_of_life_path := Some 17%Z |};
    {| name := "The Chariot"; number := Some 7%Z; suit := None; element := Some "Water";
       meaning_upright := "Control, willpower, success, determination";
       meaning_reversed := "Self-discipline, opposition, lack of direction";
       golden_dawn_correspondence := "Path of Cheth, Cancer, Child of Powers of Waters";
       hebrew_letter := Some "Cheth"; astrological_correspondence := Some "Cancer";
       tree_of_life_path := Some 18%Z |};
    {| name := "Strength"; number := Some 8%Z; suit := None; element := Some "Fire";
       meaning_upright := "Strength, courage, persuasion, influence, compassion";
       meaning_reversed := "Self-doubt, low energy, raw emotion";
       golden_dawn_correspondence := "Path of Teth, Leo, Daughter of Flaming Sword";
       hebrew_letter := Some "Teth"; astrological_correspondence := Some "Leo";
       tree_of_life_path := Some 19%Z |};
    {| name := "The Hermit"; number := Some 9%Z; suit := None; element := Some "Earth";
       meaning_upright := "Soul searching, introspection, inner guidance";
       meaning_reversed := "Isolation, loneliness, withdrawal";
       golden_dawn_correspondence := "Path of Yod, Virgo, Magus of Voice of Light";
       hebrew_letter := Some "Yod"; astrological_correspondence := Some "Virgo";
       tree_of_life_path := Some 20%Z |};
    {| name := "Wheel of Fortune"; number := Some 10%Z; suit := None; element := Some "Fire";
       meaning_upright := "Good luck, karma, life cycles, destiny, turning point";
       meaning_reversed := "Bad luck, lack of control, clinging to control";
       golden_dawn_correspondence := "Path of Kaph, Jupiter, Lord of Forces of Life";
       hebrew_letter := Some "Kaph"; astrological_correspondence := Some "Jupiter";
       tree_of_life_path := Some 21%Z |};
    {| name := "Justice"; number := Some 11%Z; suit := None; element := Some "Air";
       meaning_upright := "Justice, fairness, truth, cause and effect, law";
       meaning_reversed := "Unfairness, lack of accountability, dishonesty";
       golden_dawn_correspondence := "Path of Lamed, Libra, Daughter of Lords of Truth";
       hebrew_letter := Some "Lamed"; astrological_correspondence := Some "Libra";
       tree_of_life_path := Some 22%Z |};
    {| name := "The Hanged Man"; number := Some 12%Z; suit := None; element := Some "Water";
       meaning_upright := "Suspension, restriction, letting go, sacrifice";
       meaning_reversed := "Martyrdom, indecision, delay";
       golden_dawn_correspondence := "Path of Mem, Water, Spirit of Mighty Waters";
       hebrew_letter := Some "Mem"; astrological_correspondence := Some "Neptune";
       tree_of_life_path := Some 23%Z |} ].

Definition wands : list TarotCard.t :=
  [ {| name := "Ace of Wands"; number := Some 1%Z; suit := Some "Wands"; element := Some "Fire";
       meaning_upright := "Inspiration, new opportunities, growth";
       meaning_reversed := "Lack of energy, lack of passion, boredom";
       golden_dawn_correspondence := "Root of Fire, Kether in Fire";
       hebrew_letter := None; astrological_correspondence := None;
       tree_of_life_path := Some 1%Z |} ].

Definition cups : list TarotCard.t :=
  [ {| name := "Ace of Cups"; number := Some 1%Z; suit := Some "Cups"; element := Some "Water";
       meaning_upright := "Love, new relationships, compassion, creativity";
       meaning_reversed := "Self-love, intuition, repressed emotions";
       golden_dawn_correspondence := "Root of Water, Kether in Water";
       hebrew_letter := None; astrological_correspondence := None;
       tree_of_life_path := Some 1%Z |} ].

Definition swords : list TarotCard.t :=
  [ {| name := "Ace of Swords"; number := Some 1%Z; suit := Some "Swords"; element := Some "Air";
       meaning_upright := "New ideas, mental clarity, breakthrough";
       meaning_reversed := "Inner clarity, re-thinking an idea, clouded judgment";
       golden_dawn_correspondence := "Root of Air, Kether in Air";
       hebrew_letter := None; astrological_correspondence := None;
       tree_of_life_path := Some 1%Z |} ].

Definition pentacles : list TarotCard.t :=
  [ {| name := "Ace of Pentacles"; number := Some 1%Z; suit := Some "Pentacles"; element := Some "Earth";
       meaning_upright := "New financial opportunity, manifestation, abundance";
       meaning_reversed := "Lost opportunity, lack of planning, poor financial decisions";
       golden_dawn_correspondence := "Root of Earth, Kether in Earth";
       hebrew_letter := None; astrological_correspondence := None;
       tree_of_life_path := Some 1%Z |} ].
End Deck.

Definition GOLDEN_DAWN_DECK : list (string * list TarotCard.t) :=
  [ ("major_arcana", Deck.major_arcana);
    ("wands", Deck.wands);
    ("cups", Deck.cups);
    ("swords", Deck.swords);
    ("pentacles", Deck.pentacles) ].

(** [get_all_cards]: every card of every category, in table order. *)
Definition get_all_cards : list TarotCard.t :=
  foldl (fun all_cards category =>
           foldl (fun all_cards card_data => all_cards ++ [card_data])
                 all_cards category)
        [] (map snd GOLDEN_DAWN_DECK).

(** ** The spread catalog *)

Module Spreads.
Import TarotSpread.

Definition single_card : TarotSpread.t :=
  {| name := "Single Card";
     positions :=
       [ "Guidance" ];
     description := "Simple single-card draw for quick guidance";
     card_count := 1%Z |}.

Definition three_card : TarotSpread.t :=
  {| name := "Past, Present, Future";
     positions :=
       [ "Past/Foundation";
         "Present/Challenge";
         "Future/Outcome" ];
     description := "Simple three-card spread for quick insight";
     card_count := 3%Z |}.

Definition celtic_cross : TarotSpread.t :=
  {| name := "Celtic Cross";
     positions :=
       [ "Present Situation";
         "Challenge/Cross";
         "Distant Past/Foundation";
         "Recent Past";
         "Crown/Possible Outcome";
         "Immediate Future";
         "Your Approach";
         "External Influences";
         "Hopes and Fears";
         "Final Outcome" ];
     description := "The most comprehensive spread, exploring all aspects of your situation";
     card_count := 10%Z |}.

Definition tree_of_life : TarotSpread.t :=
  {| name := "Tree of Life";
     positions :=
       [ "Kether (Crown)";
         "Chokmah (Wisdom)";
         "Binah (Understanding)";
         "Chesed (Mercy)";
         "Geburah (Severity)";
         "Tiphareth (Beauty)";
         "Netzach (Victory)";
         "Hod (Glory)";
         "Yesod (Foundation)";
         "Malkuth (Kingdom)" ];
     description := "Based on the Kabbalistic Tree of Life, providing deep spiritual insight";
     card_count := 10%Z |}.

Definition golden_dawn : TarotSpread.t :=
  {| name := "Golden Dawn Temple";
     positions :=
       [ "Present Situation";
         "Hidden Influences";
         "Past Foundations";
         "Future Possibilities";
         "Higher Guidance";
         "Practical Action";
         "Inner Wisdom";
         "External Forces";
         "Final Outcome" ];
     description := "Sacred 9-card Golden Dawn spread using all available cards";
     card_count := 9%Z |}.

Definition seven_pointed_star : TarotSpread.t :=
  {| name := "Seven-Pointed Star";
     positions :=
       [ "Self";
         "Past";
         "Future";
         "Hidden Influences";
         "External Forces";
         "Hopes/Fears";
         "Final Outcome" ];
     description := "Mystical 7-card spread for deep spiritual insight";
     card_count := 7%Z |}.

Definition table : list (string * TarotSpread.t) :=
  [ ("single_card", single_card);
    ("three_card", three_card);
    ("celtic_cross", celtic_cross);
    ("tree_of_life", tree_of_life);
    ("golden_dawn", golden_dawn);
    ("seven_pointed_star", seven_pointed_star) ].

End Spreads.

(** [TAROT_SPREADS]: a dict from spread identifier to spread. *)
Definition TAROT_SPREADS : gmap string TarotSpread.t :=
  list_to_map Spreads.table.

(** ** The draw engine *)

Module DrawnCard.
(** The dict literal that [draw_cards] appends for each card; its four keys
    are fixed, so it is a record. *)
Record t : Type := {
  card : TarotCard.t;
  reversed : bool;
  meaning : string;
  orientation : string
}.

Definition dict (d : t) : pydict :=
  [ ("card", PDict (TarotCard.dict (card d)));
    ("reversed", PBool (reversed d));
    ("meaning", PStr (meaning d));
    ("orientation", PStr (orientation d)) ].
End DrawnCard.

(** The body of [for card in drawn_cards] in [draw_cards], appending to
    [result]. *)
Fixpoint draw_loop (include_reversed : bool) (drawn_cards : list TarotCard.t)
    (result : list DrawnCard.t) : M (list DrawnCard.t) :=
  match drawn_cards with
  | [] => ret result
  | card :: rest =>
      is_reversed <- (if include_reversed then random_choice [true; false]
                      else ret false) ;;
      draw_loop include_reversed rest
        (result ++
         [ {| DrawnCard.card := card;
              DrawnCard.reversed := is_reversed;
              DrawnCard.meaning :=
                if is_reversed then TarotCard.meaning_reversed card
                else TarotCard.meaning_upright card;
              DrawnCard.orientation :=
                if is_reversed then "Reversed" else "Upright" |} ])
  end.

Definition draw_cards (count : Z) (include_reversed : bool)
    : M (list DrawnCard.t) :=
  let all_cards := get_all_cards in
  let count :=
    if (count >? Z.of_nat (length all_cards))%Z
    then Z.of_nat (length all_cards) else count in
  drawn_cards <- random_sample all_cards count ;;
  draw_loop include_reversed drawn_cards [].

(** ** The interpretation formatter *)

Definition nl : string := String "010"%char EmptyString.

(** [str.isspace] on one character. *)
Definition py_isspace (c : ascii) : bool :=
  let n := nat_of_ascii c in
  ((9 <=? n) && (n <=? 13) || (28 <=? n) && (n <=? 32)
   || (n =? 133) || (n =? 160))%nat.

Fixpoint lstrip (s : string) : string :=
  match s with
  | String c s' => if py_isspace c then lstrip s' else s
  | EmptyString => EmptyString
  end.

Fixpoint rstrip (s : string) : string :=
  match s with
  | String c s' =>
      match rstrip s' with
      | EmptyString => if py_isspace c then EmptyString
                       else String c EmptyString
      | r => String c r
      end
  | EmptyString => EmptyString
  end.

(** [s.strip()] *)
Definition strip (s : string) : string := rstrip (lstrip s).

(** [question or default]: [None] and the empty string are falsy. *)
Definition py_or (question : option string) (default : string) : string :=
  match question with
  | Some (String c q) => String c q
  | _ => default
  end.

(** [spread_type in TAROT_SPREADS] *)
Definition spread_registered (spread_type : string) : bool :=
  bool_decide (is_Some (TAROT_SPREADS !! spread_type)).

(** [TAROT_SPREADS[spread_type]] *)
Definition spread_getitem (spread_type : string) : result TarotSpread.t :=
  match TAROT_SPREADS !! spread_type with
  | Some spread => Return spread
  | None => Raise (KeyError spread_type)
  end.

(** [positions[i]] *)
Definition list_getitem {A} (l : list A) (i : nat) : result A :=
  match l !! i with
  | Some x => Return x
  | None => Raise IndexError
  end.

(** The conditional expression that chooses the label of card [i]. *)
Definition position_label (spread_type : string) (i : nat) : result string :=
  match spread_getitem spread_type with
  | Raise e => Raise e
  | Return spread =>
      if (i <? length (TarotSpread.positions spread))%nat
      then match spread_getitem spread_type with
           | Raise e => Raise e
           | Return spread => list_getitem (TarotSpread.positions spread) i
           end
      else Return ("Position " +:+ str_int (Z.of_nat i + 1))
  end.

(** The text that one card adds. *)
Definition card_block (position : string) (card_info : DrawnCard.t) : string :=
  nl +:+ position +:+ ": " +:+ TarotCard.name (DrawnCard.card card_info)
     +:+ " (" +:+ DrawnCard.orientation card_info +:+ ")" +:+ nl
     +:+ DrawnCard.meaning card_info +:+ nl
     +:+ "Golden Dawn: "
     +:+ TarotCard.golden_dawn_correspondence (DrawnCard.card card_info)
     +:+ nl +:+ nl.

Definition closing_text : string :=
  nl +:+ "This reading suggests a journey through the archetypes and energies represented by these sacred symbols. Consider how each card's energy applies to your current situation and the guidance it offers for your path forward.".

(** [for i, card_info in enumerate(cards)], from index [i] on, appending to
    [interpretation]. *)
Fixpoint format_loop (spread_type : string) (i : nat)
    (cards : list DrawnCard.t) (interpretation : string) : result string :=
  match cards with
  | [] => Return interpretation
  | card_info :: rest =>
      match position_label spread_type i with
      | Raise e => Raise e
      | Return position =>
          format_loop spread_type (S i) rest
            (interpretation +:+ card_block position card_info)
      end
  end.

Definition _generate_basic_interpretation (cards : list DrawnCard.t)
    (question : option string) (spread_type : string) : result string :=
  let interpretation :=
    "Reading for: " +:+ py_or question "General guidance" +:+ nl +:+ nl in
  match format_loop spread_type 0 cards interpretation with
  | Raise e => Raise e
  | Return interpretation => Return (strip (interpretation +:+ closing_text))
  end.

(** The live part of [get_ai_interpretation]: the [return] in the [try], and
    the handler.  The call of the AI service is a string literal after the
    [return] and is never run. *)
Definition get_ai_interpretation (cards : list DrawnCard.t)
    (question : option string) (spread_type : string) : M string :=
  try_except
    (lift (_generate_basic_interpretation cards question spread_type))
    [ (except_Exception,
       fun e => lift (_generate_basic_interpretation cards question spread_type)) ].

(** ** The reading store *)

Definition readings_path : string := "/app/readings".

(** [Path(dir) / name] as a string: an absolute [name] replaces [dir].  The
    clean-up of doubled separators by [pathlib] is left out. *)
Definition path_join (dir name : string) : string :=
  match name with
  | String "/" _ => name
  | _ => dir +:+ "/" +:+ name
  end.

Definition reading_file_of (reading_id : string) : string :=
  path_join readings_path (reading_id +:+ ".json").

Definition set_file (path text : string) (w : World) : World :=
  {| entropy := entropy w; taken := taken w;
     now_local := now_local w; now_utc := now_utc w;
     files := <[path:=text]> (files w);
     unwritable := unwritable w |}.

(** [with open(path, 'w') as f: f.write(text)] *)
Definition write_file (path text : string) : M unit :=
  fun w =>
    if decide (path ∈ unwritable w) then (Raise (OSError path), w)
    else (Return tt, set_file path text w).

(** [path.exists()] *)
Definition path_exists (path : string) : M bool :=
  fun w => (Return (bool_decide (is_Some (files w !! path))), w).

(** [with open(path, 'r') as f: f.read()] *)
Definition read_file (path : string) : M string :=
  fun w => match files w !! path with
           | Some text => (Return text, w)
           | None => (Raise (FileNotFoundError path), w)
           end.

Definition get_now_local : M string := fun w => (Return (now_local w), w).
Definition get_now_utc : M string := fun w => (Return (now_utc w), w).

Section Service.
Context `{PyRuntime}.

Definition save_reading (reading : TarotReading.t) : M string :=
  let reading_file := reading_file_of (TarotReading.reading_id reading) in
  try_except
    (let reading_dict := TarotReading.dict reading in
     let reading_dict :=
       dict_set "timestamp" (PStr (TarotReading.timestamp reading))
                reading_dict in
     write_file reading_file (json_dumps (PDict reading_dict)) ;;;
     ret reading_file)
    [ (except_Exception, fun e => raise e) ].

(** ** The endpoints *)

(** [POST /reading] *)
Definition create_reading (request : ReadingRequest.t) : M pyval :=
  try_except
    ((if negb (spread_registered (ReadingRequest.spread_type request))
      then raise (HTTPException 400
                    ("Unknown spread type: "
                     +:+ ReadingRequest.spread_type request))
      else ret tt) ;;;
     spread <- lift (spread_getitem (ReadingRequest.spread_type request)) ;;
     cards_drawn <- draw_cards (TarotSpread.card_count spread)
                               (ReadingRequest.include_reversed request) ;;
     interpretation <- get_ai_interpretation cards_drawn
                         (ReadingRequest.question request)
                         (ReadingRequest.spread_type request) ;;
     stamp <- get_now_local ;;
     suffix <- random_randint 1000 9999 ;;
     let reading_id := "reading_" +:+ stamp +:+ "_" +:+ str_int suffix in
     timestamp <- get_now_utc ;;
     let reading :=
       {| TarotReading.spread_type := ReadingRequest.spread_type request;
          TarotReading.question := ReadingRequest.question request;
          TarotReading.cards_drawn := map DrawnCard.dict cards_drawn;
          TarotReading.interpretation := interpretation;
          TarotReading.timestamp := timestamp;
          TarotReading.reading_id := reading_id |} in
     save_reading reading ;;;
     ret (PDict
            [ ("success", PBool true);
              ("reading",
               PDict (dict_set "timestamp"
                        (PStr (TarotReading.timestamp reading))
                        (TarotReading.dict reading)));
              ("message",
               PStr ("Reading completed successfully: " +:+ reading_id)) ]))
    [ (except_Exception, fun e => raise (HTTPException 500 (exc_str e))) ].

(** [GET /reading/{reading_id}] *)
Definition get_reading (reading_id : string) : M pyval :=
  try_except
    (let reading_file := reading_file_of reading_id in
     found <- path_exists reading_file ;;
     (if negb found then raise (HTTPException 404 "Reading not found")
      else ret tt) ;;;
     text <- read_file reading_file ;;
     reading_data <- match json_loads text with
                     | Some v => ret v
                     | None => raise (ValueError "Expecting value")
                     end ;;
     ret (PDict [ ("reading", reading_data) ]))
    [ (except_FileNotFoundError,
       fun _ => raise (HTTPException 404 "Reading not found"));
      (except_Exception,
       fun e => raise (HTTPException 500 (exc_str e))) ].

End Service.

(** ** A JSON codec

    A printer after [json.dumps(v, indent=2)] and a reader of JSON text,
    over the values of [pyval].  Numbers are integers; a number may start
    with zeros.  The codec is one runtime for the service; the service
    itself is stated over any [PyRuntime]. *)

Module Json.

Definition chars (s : string) : list ascii := list_ascii_of_string s.

Definition quote : ascii := "034"%char.
Definition backslash : ascii := "\"%char.

(** *** Integers *)

Definition digit_of (c : ascii) : option (uint -> uint) :=
  match c with
  | "0" => Some D0 | "1" => Some D1 | "2" => Some D2 | "3" => Some D3
  | "4" => Some D4 | "5" => Some D5 | "6" => Some D6 | "7" => Some D7
  | "8" => Some D8 | "9" => Some D9 | _ => None
  end%char.

Fixpoint parse_digits (s : list ascii) : uint * list ascii :=
  match s with
  | c :: s' =>
      match digit_of c with
      | Some digit => let (u, r) := parse_digits s' in (digit u, r)
      | None => (Nil, s)
      end
  | [] => (Nil, [])
  end.

Definition parse_int (s : list ascii) : option (Z * list ascii) :=
  match s with
  | c :: s' =>
      if Ascii.eqb c "-"
      then match parse_digits s' with
           | (Nil, _) => None
           | (u, r) => Some (Z.of_int (Neg u), r)
           end
      else match parse_digits s with
           | (Nil, _) => None
           | (u, r) => Some (Z.of_int (Pos u), r)
           end
  | [] => None
  end.

(** *** Strings *)

Definition hex_digit (n : nat) : ascii :=
  nth n (chars "0123456789abcdef") "0"%char.

(** The place of a character in a text. *)
Fixpoint index_of (c : ascii) (l : list ascii) : option nat :=
  match l with
  | [] => None
  | d :: l' => if Ascii.eqb c d then Some 0%nat else S <$> index_of c l'
  end.

(** The value of a hexadecimal digit, in either case. *)
Definition unhex (c : ascii) : option nat :=
  match index_of c (chars "0123456789abcdef") with
  | Some n => Some n
  | None => (fun n => (n + 10)%nat) <$> index_of c (chars "ABCDEF")
  end.

(** One character of a string, as [ensure_ascii] writes it. *)
Definition escape_char (c : ascii) : list ascii :=
  match c with
  | "034" => [backslash; quote]
  | "\" => [backslash; backslash]
  | "010" => [backslash; "n"]
  | "013" => [backslash; "r"]
  | "009" => [backslash; "t"]
  | "008" => [backslash; "b"]
  | "012" => [backslash; "f"]
  | _ =>
      let n := nat_of_ascii c in
      if ((n <? 32) || (126 <? n))%nat
      then [backslash; "u"; "0"; "0"; hex_digit (n / 16); hex_digit (n mod 16)]
      else [c]
  end%char.

Fixpoint print_chars (s : string) : list ascii :=
  match s with
  | EmptyString => []
  | String c s' => escape_char c ++ print_chars s'
  end.

Definition print_string (s : string) : list ascii :=
  quote :: print_chars s ++ [quote].

(** The characters of a string up to its closing quote. *)
Fixpoint parse_chars (s : list ascii) : option (string * list ascii) :=
  match s with
  | [] => None
  | c :: s' =>
      if Ascii.eqb c quote then Some (EmptyString, s')
      else if Ascii.eqb c backslash then
        match s' with
        | e :: s'' =>
            if Ascii.eqb e "u" then
              match s'' with
              | h1 :: h2 :: h3 :: h4 :: s''' =>
                  match unhex h1, unhex h2, unhex h3, unhex h4 with
                  | Some 0%nat, Some 0%nat, Some n3, Some n4 =>
                      match parse_chars s''' with
                      | Some (str, r) =>
                          Some (String (ascii_of_nat (n3 * 16 + n4)) str, r)
                      | None => None
                      end
                  | _, _, _, _ => None
                  end
              | _ => None
              end
            else
              match (match e with
                     | "034" => Some quote
                     | "\" => Some backslash
                     | "/" => Some "/"
                     | "n" => Some "010"
                     | "r" => Some "013"
                     | "t" => Some "009"
                     | "b" => Some "008"
                     | "f" => Some "012"
                     | _ => None
                     end)%char with
              | Some d =>
                  match parse_chars s'' with
                  | Some (str, r) => Some (String d str, r)
                  | None => None
                  end
              | None => None
              end
        | [] => None
        end
      else if (nat_of_ascii c <? 32)%nat then None
      else
        match parse_chars s' with
        | Some (str, r) => Some (String c str, r)
        | None => None
        end
  end.

(** *** Documents *)

Definition newline_indent (level : nat) : list ascii :=
  "010"%char :: concat (replicate level [" "; " "]%char).

Definition print_more_items (pr : pyval -> list ascii) (level : nat)
    : list pyval -> list ascii :=
  fix more (l : list pyval) : list ascii :=
    match l with
    | [] => []
    | x :: l' => ","%char :: newline_indent level ++ pr x ++ more l'
    end.

Definition print_more_members (pr : pyval -> list ascii) (level : nat)
    : list (string * pyval) -> list ascii :=
  fix more (d : list (string * pyval)) : list ascii :=
    match d with
    | [] => []
    | (k, x) :: d' =>
        ","%char :: newline_indent level ++ print_string k
        ++ ":"%char :: " "%char :: pr x ++ more d'
    end.

(** [json.dumps(v, indent=2)] at nesting [level]. *)
Fixpoint print (level : nat) (v : pyval) : list ascii :=
  match v with
  | PNone => chars "null"
  | PBool true => chars "true"
  | PBool false => chars "false"
  | PInt n => print_int n
  | PStr s => print_string s
  | PList [] => chars "[]"
  | PList (x :: l) =>
      "["%char :: newline_indent (S level) ++ print (S level) x
      ++ print_more_items (print (S level)) (S level) l
      ++ newline_indent level ++ ["]"%char]
  | PDict [] => chars "{}"
  | PDict ((k, x) :: d) =>
      "{"%char :: newline_indent (S level) ++ print_string k
      ++ ":"%char :: " "%char :: print (S level) x
      ++ print_more_members (print (S level)) (S level) d
      ++ newline_indent level ++ ["}"%char]
  end.

Definition is_ws (c : ascii) : bool :=
  match c with
  | " " | "010" | "013" | "009" => true
  | _ => false
  end%char.

Fixpoint skip_ws (s : list ascii) : list ascii :=
  match s with
  | c :: s' => if is_ws c then skip_ws s' else s
  | [] => []
  end.

Fixpoint strip_prefix (p s : list ascii) : option (list ascii) :=
  match p, s with
  | [], _ => Some s
  | a :: p', b :: s' => if Ascii.eqb a b then strip_prefix p' s' else None
  | _ :: _, [] => None
  end.

Definition expect {A} (word : string) (a : A) (s : list ascii)
    : option (A * list ascii) :=
  match strip_prefix (chars word) s with
  | Some r => Some (a, r)
  | None => None
  end.

(** The first character of a document. *)
Definition starts_value (c : ascii) : bool :=
  match c with
  | "034" | "[" | "{" | "n" | "t" | "f" | "-" => true
  | _ => match digit_of c with Some _ => true | None => false end
  end%char.

Fixpoint parse_value (fuel : nat) (s : list ascii) {struct fuel}
    : option (pyval * list ascii) :=
  match fuel with
  | O => None
  | S fuel =>
      match skip_ws s with
      | [] => None
      | c :: r =>
          if Ascii.eqb c quote then
            match parse_chars r with
            | Some (str, r') => Some (PStr str, r')
            | None => None
            end
          else if Ascii.eqb c "[" then
            match skip_ws r with
            | c' :: r' =>
                if Ascii.eqb c' "]" then Some (PList [], r')
                else match parse_items fuel r with
                     | Some (l, r'') => Some (PList l, r'')
                     | None => None
                     end
            | [] => None
            end
          else if Ascii.eqb c "{" then
            match skip_ws r with
            | c' :: r' =>
                if Ascii.eqb c' "}" then Some (PDict [], r')
                else match parse_members fuel r with
                     | Some (d, r'') => Some (PDict d, r'')
                     | None => None
                     end
            | [] => None
            end
          else if Ascii.eqb c "n" then expect "null" PNone (c :: r)
          else if Ascii.eqb c "t" then expect "true" (PBool true) (c :: r)
          else if Ascii.eqb c "f" then expect "false" (PBool false) (c :: r)
          else
            match parse_int (c :: r) with
            | Some (n, r') => Some (PInt n, r')
            | None => None
            end
      end
  end
with parse_items (fuel : nat) (s : list ascii) {struct fuel}
    : option (list pyval * list ascii) :=
  match fuel with
  | O => None
  | S fuel =>
      match parse_value fuel s with
      | Some (v, r) =>
          match skip_ws r with
          | c :: r' =>
              if Ascii.eqb c "," then
                match parse_items fuel r' with
                | Some (l, r'') => Some (v :: l, r'')
                | None => None
                end
              else if Ascii.eqb c "]" then Some ([v], r')
              else None
          | [] => None
          end
      | None => None
      end
  end
with parse_members (fuel : nat) (s : list ascii) {struct fuel}
    : option (list (string * pyval) * list ascii) :=
  match fuel with
  | O => None
  | S fuel =>
      match skip_ws s with
      | c :: r =>
          if Ascii.eqb c quote then
            match parse_chars r with
            | Some (k, r1) =>
                match skip_ws r1 with
                | c1 :: r2 =>
                    if Ascii.eqb c1 ":" then
                      match parse_value fuel r2 with
                      | Some (v, r3) =>
                          match skip_ws r3 with
                          | c3 :: r4 =>
                              if Ascii.eqb c3 "," then
                                match parse_members fuel r4 with
                                | Some (d, r5) => Some ((k, v) :: d, r5)
                                | None => None
                                end
                              else if Ascii.eqb c3 "}" then Some ([(k, v)], r4)
                              else None
                          | [] => None
                          end
                      | None => None
                      end
                    else None
                | [] => None
                end
            | None => None
            end
          else None
      | [] => None
      end
  end.

Definition dumps (v : pyval) : string := string_of_list_ascii (print 0 v).

Definition loads (text : string) : option pyval :=
  let s := list_ascii_of_string text in
  match parse_value (length s) s with
  | Some (v, r) => match skip_ws r with [] => Some v | _ => None end
  | None => None
  end.


(** The fuel that parsing a value back takes. *)
Fixpoint cost (v : pyval) : nat :=
  match v with
  | PList l => S (foldr (fun x c => S (Nat.max (cost x) c)) 0%nat l)
  | PDict d => S (foldr (fun kv c => S (Nat.max (cost kv.2) c)) 0%nat d)
  | _ => 1
  end.

(** A text before which a number ends. *)
Definition stops (rest : list ascii) : Prop :=
  match rest with
  | [] => True
  | c :: _ => digit_of c = None
  end.

(** The value that a printed document parses back to, whatever follows. *)
Definition parses_back (v : pyval) : Prop :=
  forall (level fuel : nat) (rest : list ascii),
    (cost v <= fuel)%nat -> stops rest ->
    parse_value fuel (print level v ++ rest) = Some (v, rest).

Definition items_cost (l : list pyval) : nat :=
  foldr (fun x c => S (Nat.max (cost x) c)) 0%nat l.

Definition members_cost (d : list (string * pyval)) : nat :=
  foldr (fun kv c => S (Nat.max (cost kv.2) c)) 0%nat d.

End Json.

(** ** A runtime and sample inputs *)

(** [str(e)] after CPython and Starlette: an [HTTPException] prints as
    its status and detail, a [KeyError] as its quoted key. *)
Definition reference_exc_str (e : exn) : string :=
  match e with
  | HTTPException status_code detail => str_int status_code +:+ ": " +:+ detail
  | KeyError key => "'" +:+ key +:+ "'"
  | IndexError => "list index out of range"
  | ValueError msg => msg
  | OSError path => "[Errno 13] Permission denied: '" +:+ path +:+ "'"
  | FileNotFoundError path =>
      "[Errno 2] No such file or directory: '" +:+ path +:+ "'"
  end.

Definition reference_runtime : PyRuntime :=
  {| exc_str := reference_exc_str;
     json_dumps := Json.dumps;
     json_loads := Json.loads |}.

(** The codec law that the round trip of the store rests on. *)
Definition json_round_trips `{PyRuntime} : Prop :=
  forall v : pyval, json_loads (json_dumps v) = Some v.

Definition sample_world : World :=
  {| entropy := fun i => (7 * i + 3)%nat;
     taken := 0;
     now_local := "20250101_120000";
     now_utc := "2025-01-01T12:00:00+00:00";
     files := ∅;
     unwritable := ∅ |}.

Definition sample_request (spread_type : string) (include_reversed : bool)
    : ReadingRequest.t :=
  {| ReadingRequest.question := None;
     ReadingRequest.spread_type := spread_type;
     ReadingRequest.include_reversed := include_reversed;
     ReadingRequest.deck_type := "golden_dawn";
     ReadingRequest.interpretation_style := "traditional";
     ReadingRequest.user_birth_info := None |}.

(** Two drawn cards, one of them reversed. *)
Definition sample_cards : list DrawnCard.t :=
  match fst (draw_cards 2 true sample_world) with
  | Return cards => cards
  | Raise _ => []
  end.

Definition sample_reading : TarotReading.t :=
  {| TarotReading.spread_type := "single_card";
     TarotReading.question := Some "What now?";
     TarotReading.cards_drawn := map DrawnCard.dict sample_cards;
     TarotReading.interpretation := "Guidance: The Empress (Reversed)";
     TarotReading.timestamp := "2025-01-01T12:00:00+00:00";
     TarotReading.reading_id := "reading_20250101_120000_1234" |}.

(** ** Vocabulary of the properties *)

(** The name of a drawn card. *)
Definition drawn_name (d : DrawnCard.t) : string :=
  TarotCard.name (DrawnCard.card d).

(** A drawn card that is upright: not flagged reversed, labelled "Upright",
    and carrying the upright meaning of its card. *)
Definition upright (d : DrawnCard.t) : Prop :=
  DrawnCard.reversed d = false /\
  DrawnCard.orientation d = "Upright" /\
  DrawnCard.meaning d = TarotCard.meaning_upright (DrawnCard.card d).

(** The number of cards that a draw of [count] yields. *)
Definition clamped (count : Z) : nat :=
  Z.to_nat (Z.min count (Z.of_nat (length get_all_cards))).

(** The label that the card at index [i] is to carry: the position of the
    spread at [i] when there is one, the synthesized label otherwise. *)
Definition label_of (spread : TarotSpread.t) (i : nat) : string :=
  if (i <? length (TarotSpread.positions spread))%nat
  then nth i (TarotSpread.positions spread) EmptyString
  else "Position " +:+ str_int (Z.of_nat i + 1).

Definition concat_strings (l : list string) : string :=
  foldr String.append EmptyString l.

(** The text of a reading, laid out: the header, one block per card under
    its label, the closing paragraph. *)
Definition rendered (spread : TarotSpread.t) (cards : list DrawnCard.t)
    (question : option string) : string :=
  "Reading for: " +:+ py_or question "General guidance" +:+ nl +:+ nl
  +:+ concat_strings
        (imap (fun i card_info => card_block (label_of spread i) card_info)
              cards)
  +:+ closing_text.

(** The body of the response to a reading that was created. *)
Definition response_of (reading : TarotReading.t) : pyval :=
  PDict
    [ ("success", PBool true);
      ("reading", PDict (TarotReading.dict reading));
      ("message",
       PStr ("Reading completed successfully: "
             +:+ TarotReading.reading_id reading)) ].

(** A drawn card whose meaning and orientation label follow its reversed
    flag. *)
Definition well_oriented (d : DrawnCard.t) : Prop :=
  DrawnCard.meaning d
  = (if DrawnCard.reversed d
     then TarotCard.meaning_reversed (DrawnCard.card d)
     else TarotCard.meaning_upright (DrawnCard.card d)) /\
  DrawnCard.orientation d
  = (if DrawnCard.reversed d then "Reversed" else "Upright").

(** The number of raw draws that a draw of [count] cards takes. *)
Definition draws_taken (count : Z) (include_reversed : bool) : nat :=
  clamped count + (if include_reversed then clamped count else 0).

(** The reading that [create_reading] builds for a request on a spread,
    from the cards and the suffix it drew, at the clock of [w]. *)
Definition reading_of (request : ReadingRequest.t) (spread : TarotSpread.t)
    (cards : list DrawnCard.t) (suffix : Z) (w : World) : TarotReading.t :=
  {| TarotReading.spread_type := ReadingRequest.spread_type request;
     TarotReading.question := ReadingRequest.question request;
     TarotReading.cards_drawn := map DrawnCard.dict cards;
     TarotReading.interpretation :=
       rendered spread cards (ReadingRequest.question request);
     TarotReading.timestamp := now_utc w;
     TarotReading.reading_id :=
       "reading_" +:+ now_local w +:+ "_" +:+ str_int suffix |}.

(** The document under which a reading is answered by [get_reading]. *)
Definition stored_document (reading : TarotReading.t) : pyval :=
  PDict [ ("reading", PDict (TarotReading.dict reading)) ].

(** A text without the path separator.  The identifiers that
    [create_reading] makes are such texts, the clock permitting; only on
    such identifiers is [path_join] the whole of what [pathlib] does. *)
Fixpoint has_separator (s : string) : bool :=
  match s with
  | EmptyString => false
  | String c s' => Ascii.eqb c "/" || has_separator s'
  end.

Definition plain (s : string) : Prop := has_separator s = false.

(** A world whose random source always gives the same raw draw. *)
Definition stuck_world : World :=
  {| entropy := fun _ => 3%nat;
     taken := 0;
     now_local := "20250101_120000";
     now_utc := "2025-01-01T12:00:00+00:00";
     files := ∅;
     unwritable := ∅ |}.

(** A world in which the file of the next three-card reading cannot be
    written. *)
Definition barred_world : World :=
  {| entropy := fun i => (7 * i + 3)%nat;
     taken := 0;
     now_local := "20250101_120000";
     now_utc := "2025-01-01T12:00:00+00:00";
     files := ∅;
     unwritable := {[ "/app/readings/reading_20250101_120000_1024.json" ]} |}.

(** A world that stores a file which is no JSON document. *)
Definition corrupt_world : World :=
  {| entropy := fun i => (7 * i + 3)%nat;
     taken := 0;
     now_local := "20250101_120000";
     now_utc := "2025-01-01T12:00:00+00:00";
     files := {[ "/app/readings/broken.json" := "{ not json" ]};
     unwritable := ∅ |}.

Definition asking (question : string) (spread_type : string)
    : ReadingRequest.t :=
  {| ReadingRequest.question := Some question;
     ReadingRequest.spread_type := spread_type;
     ReadingRequest.include_reversed := true;
     ReadingRequest.deck_type := "golden_dawn";
     ReadingRequest.interpretation_style := "traditional";
     ReadingRequest.user_birth_info := None |}.

(** The cards of a draw, none when the draw raises. *)
Definition cards_drawn_in (count : Z) (include_reversed : bool) (w : World)
    : list DrawnCard.t :=
  match fst (draw_cards count include_reversed w) with
  | Return cards => cards
  | Raise _ => []
  end.

(** A hand of one card, the only wand of the deck, upright. *)
Definition upright_of (card : TarotCard.t) : DrawnCard.t :=
  {| DrawnCard.card := card;
     DrawnCard.reversed := false;
     DrawnCard.meaning := TarotCard.meaning_upright card;
     DrawnCard.orientation := "Upright" |}.

Definition sample_hand : list DrawnCard.t := map upright_of Deck.wands.

(** A reading saved under the name of [sample_reading] after it. *)
Definition revised_reading : TarotReading.t :=
  {| TarotReading.spread_type := "single_card";
     TarotReading.question := Some "And now?";
     TarotReading.cards_drawn := map DrawnCard.dict sample_cards;
     TarotReading.interpretation := "Guidance: The Empress (Upright)";
     TarotReading.timestamp := "2025-01-01T12:00:05+00:00";
     TarotReading.reading_id := "reading_20250101_120000_1234" |}.

(** A reading under another name. *)
Definition other_reading : TarotReading.t :=
  {| TarotReading.spread_type := "single_card";
     TarotReading.question := None;
     TarotReading.cards_drawn := [];
     TarotReading.interpretation := "Reading for: General guidance";
     TarotReading.timestamp := "2025-01-01T12:00:00+00:00";
     TarotReading.reading_id := "reading_20250101_120000_1024" |}.

(** The reading of a three-card request in [sample_world], and the world
    after it. *)
Definition first_reading : TarotReading.t :=
  reading_of (sample_request "three_card" false) Spreads.three_card
             (cards_drawn_in 3 false sample_world) 1024 sample_world.

Definition after_first : World :=
  set_file (reading_file_of (TarotReading.reading_id first_reading))
           (Json.dumps (PDict (TarotReading.dict first_reading)))
           (ticks 4 sample_world).

(** The reading of a single-card request made next, and the world after
    it. *)
Definition second_reading : TarotReading.t :=
  reading_of (asking "And then?" "single_card") Spreads.single_card
             (cards_drawn_in 1 true after_first) 1045 after_first.

Definition after_second : World :=
  set_file (reading_file_of (TarotReading.reading_id second_reading))
           (Json.dumps (PDict (TarotReading.dict second_reading)))
           (ticks 3 after_first).

(** Two readings in [stuck_world], which get the same name. *)
Definition stuck_first : TarotReading.t :=
  reading_of (asking "One" "single_card") Spreads.single_card
             (cards_drawn_in 1 true stuck_world) 1003 stuck_world.

Definition after_stuck_first : World :=
  set_file (reading_file_of (TarotReading.reading_id stuck_first))
           (Json.dumps (PDict (TarotReading.dict stuck_first)))
           (ticks 3 stuck_world).

Definition stuck_second : TarotReading.t :=
  reading_of (asking "Two" "single_card") Spreads.single_card
             (cards_drawn_in 1 true after_stuck_first) 1003
             after_stuck_first.

Definition after_stuck_second : World :=
  set_file (reading_file_of (TarotReading.reading_id stuck_second))
           (Json.dumps (PDict (TarotReading.dict stuck_second)))
           (ticks 3 after_stuck_first).

(** * Properties *)

(** ** The random source *)

Lemma ticks_0 (w : World) : ticks 0 w = w.
Proof. destruct w; unfold ticks; simpl; f_equal; lia. Qed.

Lemma ticks_ticks (a b : nat) (w : World) :
  ticks a (ticks b w) = ticks (b + a) w.
Proof. unfold ticks; simpl; f_equal; lia. Qed.

Lemma replace_by_last_Permutation {A} (pool : list A) (j : nat) (x y : A) :
  pool !! j = Some x -> last pool = Some y ->
  x :: take (length pool - 1) (<[j:=y]> pool) ≡ₚ pool.
Proof.
  intros Hx Hy. apply last_Some in Hy as [front ->].
  rewrite length_app; simpl.
  replace (length front + 1 - 1)%nat with (length front) by lia.
  destruct (decide (j < length front)%nat) as [Hlt | Hge].
  - rewrite lookup_app_l in Hx by done.
    rewrite insert_app_l by done.
    rewrite take_app_length' by (by rewrite length_insert).
    rewrite insert_take_drop by done.
    rewrite <- (take_drop_middle front j x Hx) at 3.
    rewrite <- !Permutation_middle, app_nil_r. apply Permutation_swap.
  - apply lookup_lt_Some in Hx as Hj. rewrite length_app in Hj; simpl in Hj.
    assert (j = length front) as -> by lia.
    rewrite list_lookup_middle in Hx by done. injection Hx as ->.
    rewrite insert_app_r_alt by done. rewrite Nat.sub_diag; simpl.
    rewrite take_app_length. by rewrite <- Permutation_cons_append.
Qed.

(** A sample of [k] out of a pool of at least [k]: [k] raw draws, [k]
    elements, taken from the pool without replacement. *)
Lemma sample_pool_spec {A} (k : nat) :
  forall (pool : list A) (w : World),
    (k <= length pool)%nat ->
    exists res,
      sample_pool k pool w = (Return res, ticks k w) /\
      length res = k /\
      exists rest, res ++ rest ≡ₚ pool.
Proof.
  induction k as [| k IH]; intros pool w Hk.
  - exists []. rewrite ticks_0. repeat split. by exists pool.
  - simpl. unfold bind at 1, randbelow at 1.
    set (j := (entropy w (taken w) mod length pool)%nat).
    assert (j < length pool)%nat as Hj by (apply Nat.mod_upper_bound; lia).
    destruct (lookup_lt_is_Some_2 pool j Hj) as [x Hx].
    assert (is_Some (last pool)) as [y Hy].
    { apply last_is_Some. intros ->. simpl in Hj. lia. }
    rewrite Hx, Hy.
    pose proof (replace_by_last_Permutation pool j x y Hx Hy) as Hperm.
    set (pool' := take (length pool - 1) (<[j:=y]> pool)) in *.
    assert (length pool' = length pool - 1)%nat as Hlen.
    { unfold pool'. rewrite length_take, length_insert. lia. }
    destruct (IH pool' (ticks 1 w)) as (res & Hrun & Hres & rest & Hrest);
      [lia |].
    exists (x :: res). unfold bind. rewrite Hrun. unfold ret.
    rewrite ticks_ticks. repeat split; [simpl; lia |].
    exists rest. simpl. by rewrite Hrest.
Qed.

Lemma random_choice_two {A} (a b : A) (w : World) :
  exists x, random_choice [a; b] w = (Return x, ticks 1 w) /\ (x = a \/ x = b).
Proof.
  unfold random_choice, bind, randbelow.
  change (length [a; b]) with 2%nat.
  assert (entropy w (taken w) mod 2 < 2)%nat as Hj
    by (apply Nat.mod_upper_bound; lia).
  destruct (entropy w (taken w) mod 2)%nat as [| [| j]]; [| | lia].
  - exists a. split; [reflexivity | by left].
  - exists b. split; [reflexivity | by right].
Qed.

(** ** The draw engine *)

Lemma draw_loop_cons (include_reversed : bool) (card : TarotCard.t)
    (rest : list TarotCard.t) (result : list DrawnCard.t) :
  draw_loop include_reversed (card :: rest) result
  = (is_reversed <- (if include_reversed then random_choice [true; false]
                     else ret false) ;;
     draw_loop include_reversed rest
       (result ++
        [ {| DrawnCard.card := card;
             DrawnCard.reversed := is_reversed;
             DrawnCard.meaning :=
               if is_reversed then TarotCard.meaning_reversed card
               else TarotCard.meaning_upright card;
             DrawnCard.orientation :=
               if is_reversed then "Reversed" else "Upright" |} ])).
Proof. reflexivity. Qed.

Lemma draw_loop_spec (include_reversed : bool) (drawn_cards : list TarotCard.t) :
  forall (result : list DrawnCard.t) (w : World),
    exists res,
      draw_loop include_reversed drawn_cards result w
      = (Return (result ++ res),
         ticks (if include_reversed then length drawn_cards else 0) w) /\
      map DrawnCard.card res = drawn_cards /\
      (include_reversed = false -> Forall upright res).
Proof.
  induction drawn_cards as [| card rest IH]; intros result w.
  - exists []. simpl. rewrite app_nil_r.
    destruct include_reversed; rewrite ticks_0; by repeat split.
  - rewrite draw_loop_cons. unfold bind at 1.
    destruct include_reversed.
    + destruct (random_choice_two true false w) as (b & -> & _).
      edestruct IH as (res & -> & Hcards & _).
      eexists (_ :: res). rewrite <- app_assoc. simpl.
      rewrite ticks_ticks. repeat split; [| done].
      simpl. by rewrite Hcards.
    + unfold ret at 1.
      edestruct IH as (res & -> & Hcards & Hup).
      eexists (_ :: res). rewrite <- app_assoc. simpl.
      repeat split; [simpl; by rewrite Hcards |].
      intros _. constructor; [by repeat split | by apply Hup].
Qed.

Lemma card_names_distinct : NoDup (map TarotCard.name get_all_cards).
Proof. apply (bool_decide_unpack _). by vm_compute. Qed.

Lemma draw_cards_negative (count : Z) (include_reversed : bool) (w : World) :
  (count < 0)%Z ->
  draw_cards count include_reversed w
  = (Raise (ValueError "Sample larger than population or is negative"), w).
Proof.
  intros Hneg. unfold draw_cards, bind, random_sample.
  rewrite Z.gtb_ltb.
  destruct (_ <? count)%Z eqn:Hgt; [apply Z.ltb_lt in Hgt; lia |].
  assert ((0 <=? count)%Z = false) as -> by (apply Z.leb_gt; lia).
  reflexivity.
Qed.

(** What a draw of a non-negative [count] is: [clamped count] cards sampled
    from the catalog without replacement, in the order drawn, at the cost
    of one raw draw per card, and one more per card when orientations are
    drawn. *)
Lemma draw_cards_spec (count : Z) (include_reversed : bool) (w : World) :
  (0 <= count)%Z ->
  exists cards,
    draw_cards count include_reversed w
    = (Return cards,
       ticks (clamped count
              + if include_reversed then clamped count else 0) w) /\
    length cards = clamped count /\
    (exists rest, map DrawnCard.card cards ++ rest ≡ₚ get_all_cards) /\
    (include_reversed = false -> Forall upright cards).
Proof.
  intros Hcount. unfold draw_cards, bind, random_sample.
  set (n := length get_all_cards).
  set (k := if (count >? Z.of_nat n)%Z then Z.of_nat n else count).
  assert (Z.to_nat k = clamped count /\ (0 <= k <= Z.of_nat n)%Z) as [Hk Hrange].
  { unfold k, clamped. fold n. rewrite Z.gtb_ltb.
    destruct (Z.of_nat n <? count)%Z eqn:Hgt;
      [apply Z.ltb_lt in Hgt | apply Z.ltb_ge in Hgt]; lia. }
  clearbody k.
  assert (((0 <=? k)%Z && (k <=? Z.of_nat n)%Z) = true) as ->
    by (apply andb_true_intro; split; apply Z.leb_le; lia).
  destruct (sample_pool_spec (Z.to_nat k) get_all_cards w)
    as (sampled & -> & Hlen & rest & Hperm); [fold n; lia |].
  destruct (draw_loop_spec include_reversed sampled [] (ticks (Z.to_nat k) w))
    as (res & -> & Hcards & Hup).
  exists res. rewrite ticks_ticks, Hlen, Hk, app_nil_l.
  repeat split; [| by exists rest; rewrite Hcards | done].
  by rewrite <- Hk, <- Hlen, <- Hcards, length_map.
Qed.

(** C3. For every non-negative count and either setting of the orientation
    flag, [draw_cards] raises nothing and returns exactly
    [min(count, catalog size)] drawn cards, whose card names are pairwise
    distinct and which are all cards of the catalog. *)
Theorem draw_cards_length_distinct
    (count : Z) (allow_reversed : bool) (w : World) :
  (0 <= count)%Z ->
  exists cards w',
    draw_cards count allow_reversed w = (Return cards, w') /\
    length cards
    = Z.to_nat (Z.min count (Z.of_nat (length get_all_cards))) /\
    NoDup (map drawn_name cards) /\
    Forall (fun d => DrawnCard.card d ∈ get_all_cards) cards.
Proof.
  intros Hcount.
  destruct (draw_cards_spec count allow_reversed w Hcount)
    as (cards & Hrun & Hlen & (rest & Hperm) & _).
  exists cards. eexists. split; [exact Hrun |]. split; [exact Hlen |].
  split.
  - pose proof card_names_distinct as Hnd.
    rewrite <- Hperm, map_app in Hnd. apply NoDup_app in Hnd as [Hnd _].
    unfold drawn_name. by rewrite <- (list_fmap_compose DrawnCard.card) in Hnd.
  - apply Forall_forall. intros d Hd.
    rewrite <- Hperm. apply elem_of_app. left.
    by apply (list_elem_of_fmap_2 DrawnCard.card).
Qed.

(** C4. Without reversals every drawn card is upright: the reversed flag is
    false, the orientation label is "Upright" and the meaning is the
    upright meaning of the card.  The draw returns for every count but a
    negative one, which [random.sample] refuses. *)
Theorem draw_cards_all_upright (count : Z) (w : World) :
  match fst (draw_cards count false w) with
  | Return cards => Forall upright cards
  | Raise _ => (count < 0)%Z
  end.
Proof.
  destruct (Z.lt_ge_cases count 0) as [Hneg | Hpos].
  - by rewrite draw_cards_negative.
  - destruct (draw_cards_spec count false w Hpos) as (cards & -> & _ & _ & Hup).
    by apply Hup.
Qed.

(** ** The spread catalog *)

Lemma registered_in_table (spread_type : string) (spread : TarotSpread.t) :
  TAROT_SPREADS !! spread_type = Some spread ->
  (spread_type, spread) ∈ Spreads.table.
Proof. apply elem_of_list_to_map_2. Qed.

Lemma spread_registered_true (spread_type : string) (spread : TarotSpread.t) :
  TAROT_SPREADS !! spread_type = Some spread ->
  spread_registered spread_type = true.
Proof. intros Hs. unfold spread_registered. rewrite Hs. by apply bool_decide_eq_true. Qed.

Lemma spread_registered_false (spread_type : string) :
  TAROT_SPREADS !! spread_type = None ->
  spread_registered spread_type = false.
Proof.
  intros Hs. unfold spread_registered. rewrite Hs.
  apply bool_decide_eq_false. by intros [? ?].
Qed.

(** C6. Every registered spread states as its card count the length of its
    list of positions. *)
Theorem card_count_is_positions_length
    (spread_type : string) (spread : TarotSpread.t) :
  TAROT_SPREADS !! spread_type = Some spread ->
  TarotSpread.card_count spread
  = Z.of_nat (length (TarotSpread.positions spread)).
Proof.
  intros Hs%registered_in_table.
  assert (Forall (fun entry =>
                    TarotSpread.card_count entry.2
                    = Z.of_nat (length (TarotSpread.positions entry.2)))
                 Spreads.table) as Hall by (repeat constructor).
  by apply (proj1 (Forall_forall _ _) Hall (spread_type, spread)).
Qed.

(** No registered spread asks for more cards than the catalog holds, nor
    for a negative number. *)
Lemma card_count_within_catalog (spread_type : string) (spread : TarotSpread.t) :
  TAROT_SPREADS !! spread_type = Some spread ->
  (0 <= TarotSpread.card_count spread <= Z.of_nat (length get_all_cards))%Z.
Proof.
  intros Hs%registered_in_table.
  assert (Forall (fun entry =>
                    (0 <= TarotSpread.card_count entry.2
                       <= Z.of_nat (length get_all_cards))%Z)
                 Spreads.table) as Hall
    by (repeat constructor; by vm_compute).
  by apply (proj1 (Forall_forall _ _) Hall (spread_type, spread)).
Qed.

(** ** The interpretation formatter *)

Lemma string_app_cons (c : ascii) (s t : string) :
  String c s +:+ t = String c (s +:+ t).
Proof. reflexivity. Qed.

Lemma string_app_assoc (s t u : string) : (s +:+ t) +:+ u = s +:+ (t +:+ u).
Proof.
  induction s as [| c s IH]; [reflexivity |].
  by rewrite !string_app_cons, IH.
Qed.

Lemma string_app_nil_r (s : string) : s +:+ EmptyString = s.
Proof.
  induction s as [| c s IH]; [reflexivity |]. by rewrite string_app_cons, IH.
Qed.

(** Stripping on the right leaves alone a text that ends in a part which
    stripping leaves alone. *)
Lemma rstrip_app (s t : string) :
  t <> EmptyString -> rstrip t = t -> rstrip (s +:+ t) = s +:+ t.
Proof.
  intros Hne Ht. induction s as [| c s IH]; [exact Ht |].
  rewrite string_app_cons. simpl. rewrite IH.
  destruct (s +:+ t) eqn:Hst; [| reflexivity].
  destruct s; [| discriminate]. by destruct Hne.
Qed.

Lemma position_label_registered
    (spread_type : string) (spread : TarotSpread.t) (i : nat) :
  TAROT_SPREADS !! spread_type = Some spread ->
  position_label spread_type i = Return (label_of spread i).
Proof.
  intros Hs. unfold position_label, spread_getitem, label_of. rewrite Hs.
  destruct (i <? length (TarotSpread.positions spread))%nat eqn:Hi;
    [| reflexivity].
  apply Nat.ltb_lt in Hi. unfold list_getitem.
  destruct (lookup_lt_is_Some_2 _ _ Hi) as [p Hp].
  by rewrite Hp, (nth_lookup_Some _ _ _ _ Hp).
Qed.

Lemma format_loop_registered (spread_type : string) (spread : TarotSpread.t)
    (cards : list DrawnCard.t) :
  TAROT_SPREADS !! spread_type = Some spread ->
  forall (i : nat) (interpretation : string),
    format_loop spread_type i cards interpretation
    = Return
        (interpretation
         +:+ concat_strings
               (imap (fun j card_info =>
                        card_block (label_of spread (i + j)) card_info)
                     cards)).
Proof.
  intros Hs. induction cards as [| card_info rest IH]; intros i interpretation.
  - simpl. by rewrite string_app_nil_r.
  - simpl. rewrite (position_label_registered _ _ _ Hs), IH.
    rewrite string_app_assoc, Nat.add_0_r. do 4 f_equal.
    apply imap_ext. intros j card _. simpl. do 2 f_equal. lia.
Qed.

Lemma basic_interpretation_registered (cards : list DrawnCard.t)
    (question : option string) (spread_type : string)
    (spread : TarotSpread.t) :
  TAROT_SPREADS !! spread_type = Some spread ->
  _generate_basic_interpretation cards question spread_type
  = Return (rendered spread cards question).
Proof.
  intros Hs. unfold _generate_basic_interpretation.
  rewrite (format_loop_registered _ _ _ Hs). f_equal.
  rewrite !string_app_assoc. unfold strip, rendered.
  change (lstrip ("Reading for: " +:+ ?s)) with ("Reading for: " +:+ s).
  rewrite <- !string_app_assoc. apply rstrip_app; [done | by vm_compute].
Qed.

(** C8. For a registered spread type the formatter never fails, whatever
    the drawn cards and the question: it returns the laid-out text, in
    which the card at index [i] stands under [positions[i]] when [i] is
    below the number of positions and under "Position {i+1}" otherwise,
    also when there are more cards than positions. *)
Theorem formatter_never_fails (cards : list DrawnCard.t)
    (question : option string) (spread_type : string)
    (spread : TarotSpread.t) :
  TAROT_SPREADS !! spread_type = Some spread ->
  _generate_basic_interpretation cards question spread_type
  = Return (rendered spread cards question) /\
  (forall i, (i < length (TarotSpread.positions spread))%nat ->
             TarotSpread.positions spread !! i = Some (label_of spread i)) /\
  (forall i, (length (TarotSpread.positions spread) <= i)%nat ->
             label_of spread i = "Position " +:+ str_int (Z.of_nat i + 1)).
Proof.
  intros Hs. split; [by apply basic_interpretation_registered |].
  split; intros i Hi; unfold label_of.
  - assert ((i <? length (TarotSpread.positions spread))%nat = true) as ->
      by by apply Nat.ltb_lt.
    destruct (lookup_lt_is_Some_2 _ _ Hi) as [p Hp].
    by rewrite Hp, (nth_lookup_Some _ _ _ _ Hp).
  - by assert ((i <? length (TarotSpread.positions spread))%nat = false) as ->
      by by apply Nat.ltb_ge.
Qed.

(** The interpretation entry point runs the formatter and nothing else. *)
Lemma get_ai_interpretation_run (cards : list DrawnCard.t)
    (question : option string) (spread_type : string) (w : World) :
  get_ai_interpretation cards question spread_type w
  = (_generate_basic_interpretation cards question spread_type, w).
Proof.
  unfold get_ai_interpretation, try_except, lift.
  by destruct (_generate_basic_interpretation cards question spread_type).
Qed.


(** C10. For a registered spread type [get_ai_interpretation] returns the
    very text of [_generate_basic_interpretation] on the same inputs, and
    leaves the world as it found it: nothing is sent or received. *)
Theorem ai_interpretation_is_basic (cards : list DrawnCard.t)
    (question : option string) (spread_type : string)
    (spread : TarotSpread.t) (w : World) :
  TAROT_SPREADS !! spread_type = Some spread ->
  exists text,
    _generate_basic_interpretation cards question spread_type = Return text /\
    get_ai_interpretation cards question spread_type w = (Return text, w).
Proof.
  intros Hs. exists (rendered spread cards question).
  rewrite get_ai_interpretation_run.
  by rewrite (basic_interpretation_registered _ _ _ _ Hs).
Qed.

(** ** The JSON codec *)

Module JsonFacts.
Import Json.

Lemma pyval_nested_ind (P : pyval -> Prop) :
  P PNone -> (forall b, P (PBool b)) -> (forall n, P (PInt n)) ->
  (forall s, P (PStr s)) ->
  (forall l, Forall P l -> P (PList l)) ->
  (forall d, Forall (fun kv => P kv.2) d -> P (PDict d)) ->
  forall v, P v.
Proof.
  intros HNone HBool HInt HStr HList HDict.
  fix IH 1. intros [| b | n | s | l | d].
  - exact HNone.
  - apply HBool.
  - apply HInt.
  - apply HStr.
  - apply HList. induction l as [| x l IHl]; constructor; [apply IH | exact IHl].
  - apply HDict. induction d as [| [k x] d IHd]; constructor;
      [apply IH | exact IHd].
Qed.

Lemma parse_digits_print (u : uint) (rest : list ascii) :
  stops rest -> parse_digits (print_uint u ++ rest) = (u, rest).
Proof.
  intros Hrest. induction u as [| u IH | u IH | u IH | u IH | u IH | u IH
                                | u IH | u IH | u IH | u IH];
    simpl; try (by rewrite IH).
  destruct rest as [| c rest]; [done |]. simpl in *. by rewrite Hrest.
Qed.

Lemma print_uint_head (u : uint) :
  u <> Nil ->
  exists c t, print_uint u = c :: t /\ starts_value c = true
              /\ Ascii.eqb c "-" = false.
Proof. destruct u; [done | ..]; intros _; simpl; by eauto. Qed.

Lemma print_int_head (n : Z) :
  exists c t, print_int n = c :: t /\ starts_value c = true.
Proof.
  unfold print_int. destruct n as [| p | p]; simpl.
  - by eauto.
  - destruct (print_uint_head (Pos.to_uint p)) as (c & t & -> & Hc & _);
      [apply Unsigned.to_uint_nonnil | by eauto].
  - by eauto.
Qed.

Lemma parse_int_print (n : Z) (rest : list ascii) :
  stops rest -> parse_int (print_int n ++ rest) = Some (n, rest).
Proof.
  intros Hrest. rewrite <- (DecimalZ.of_to n) at 2.
  unfold print_int. destruct n as [| p | p]; simpl Z.to_int.
  - simpl. destruct rest as [| c rest]; [done |]. simpl in *. by rewrite Hrest.
  - pose proof (Unsigned.to_uint_nonnil p) as Hnn.
    destruct (print_uint_head _ Hnn) as (c & t & Hp & _ & Hminus).
    rewrite Hp. change ((c :: t) ++ rest) with (c :: (t ++ rest)).
    unfold parse_int. rewrite Hminus.
    change (c :: (t ++ rest)) with ((c :: t) ++ rest).
    rewrite <- Hp, parse_digits_print by done.
    by destruct (Pos.to_uint p).
  - pose proof (Unsigned.to_uint_nonnil p) as Hnn.
    change (parse_int ("-"%char :: (print_uint (Pos.to_uint p) ++ rest))
            = Some (Z.of_int (Neg (Pos.to_uint p)), rest)).
    unfold parse_int. change (Ascii.eqb "-" "-") with true. cbv iota.
    rewrite parse_digits_print by done.
    by destruct (Pos.to_uint p).
Qed.

Lemma parse_chars_escape (c : ascii) (t : list ascii) :
  parse_chars (escape_char c ++ t)
  = match parse_chars t with
    | Some (str, r) => Some (String c str, r)
    | None => None
    end.
Proof. destruct c as [[] [] [] [] [] [] [] []]; reflexivity. Qed.

Lemma parse_chars_print (s : string) (rest : list ascii) :
  parse_chars (print_chars s ++ quote :: rest) = Some (s, rest).
Proof.
  induction s as [| c s IH]; [reflexivity |].
  simpl. by rewrite <- app_assoc, parse_chars_escape, IH.
Qed.

Lemma skip_ws_newline_indent (level : nat) (s : list ascii) :
  skip_ws (newline_indent level ++ s) = skip_ws s.
Proof.
  unfold newline_indent. simpl. induction level as [| level IH]; [done |].
  exact IH.
Qed.

Lemma starts_value_not_ws (c : ascii) :
  starts_value c = true -> is_ws c = false.
Proof. destruct c as [[] [] [] [] [] [] [] []]; done. Qed.

Lemma starts_value_not_closing (c : ascii) :
  starts_value c = true ->
  Ascii.eqb c "]" = false /\ Ascii.eqb c "}" = false.
Proof. destruct c as [[] [] [] [] [] [] [] []]; done. Qed.

Lemma print_head (v : pyval) (level : nat) :
  exists c t, print level v = c :: t /\ starts_value c = true.
Proof.
  destruct v as [| [] | n | s | [| x l] | [| [k x] d]];
    try (by do 2 eexists; split; [reflexivity | reflexivity]).
  apply print_int_head.
Qed.

Lemma skip_ws_print (v : pyval) (level : nat) (rest : list ascii) :
  skip_ws (print level v ++ rest) = print level v ++ rest.
Proof.
  destruct (print_head v level) as (c & t & -> & Hc).
  simpl. by rewrite (starts_value_not_ws _ Hc).
Qed.

Lemma parse_value_S (fuel : nat) (s : list ascii) :
  parse_value (S fuel) s
  = match skip_ws s with
    | [] => None
    | c :: r =>
        if Ascii.eqb c quote then
          match parse_chars r with
          | Some (str, r') => Some (PStr str, r')
          | None => None
          end
        else if Ascii.eqb c "[" then
          match skip_ws r with
          | c' :: r' =>
              if Ascii.eqb c' "]" then Some (PList [], r')
              else match parse_items fuel r with
                   | Some (l, r'') => Some (PList l, r'')
                   | None => None
                   end
          | [] => None
          end
        else if Ascii.eqb c "{" then
          match skip_ws r with
          | c' :: r' =>
              if Ascii.eqb c' "}" then Some (PDict [], r')
              else match parse_members fuel r with
                   | Some (d, r'') => Some (PDict d, r'')
                   | None => None
                   end
          | [] => None
          end
        else if Ascii.eqb c "n" then expect "null" PNone (c :: r)
        else if Ascii.eqb c "t" then expect "true" (PBool true) (c :: r)
        else if Ascii.eqb c "f" then expect "false" (PBool false) (c :: r)
        else
          match parse_int (c :: r) with
          | Some (n, r') => Some (PInt n, r')
          | None => None
          end
    end.
Proof. reflexivity. Qed.

Lemma parse_items_S (fuel : nat) (s : list ascii) :
  parse_items (S fuel) s
  = match parse_value fuel s with
    | Some (v, r) =>
        match skip_ws r with
        | c :: r' =>
            if Ascii.eqb c "," then
              match parse_items fuel r' with
              | Some (l, r'') => Some (v :: l, r'')
              | None => None
              end
            else if Ascii.eqb c "]" then Some ([v], r')
            else None
        | [] => None
        end
    | None => None
    end.
Proof. reflexivity. Qed.

Lemma parse_members_S (fuel : nat) (s : list ascii) :
  parse_members (S fuel) s
  = match skip_ws s with
    | c :: r =>
        if Ascii.eqb c quote then
          match parse_chars r with
          | Some (k, r1) =>
              match skip_ws r1 with
              | c1 :: r2 =>
                  if Ascii.eqb c1 ":" then
                    match parse_value fuel r2 with
                    | Some (v, r3) =>
                        match skip_ws r3 with
                        | c3 :: r4 =>
                            if Ascii.eqb c3 "," then
                              match parse_members fuel r4 with
                              | Some (d, r5) => Some ((k, v) :: d, r5)
                              | None => None
                              end
                            else if Ascii.eqb c3 "}" then Some ([(k, v)], r4)
                            else None
                        | [] => None
                        end
                    | None => None
                    end
                  else None
              | [] => None
              end
          | None => None
          end
        else None
    | [] => None
    end.
Proof. reflexivity. Qed.

Lemma parse_value_skip (fuel : nat) (s s' : list ascii) :
  skip_ws s = skip_ws s' -> parse_value fuel s = parse_value fuel s'.
Proof. intros Hs. destruct fuel; [done |]. by rewrite !parse_value_S, Hs. Qed.

Lemma parse_items_skip (fuel : nat) (s s' : list ascii) :
  skip_ws s = skip_ws s' -> parse_items fuel s = parse_items fuel s'.
Proof.
  intros Hs. destruct fuel; [done |].
  by rewrite !parse_items_S, (parse_value_skip _ _ _ Hs).
Qed.

Lemma parse_members_skip (fuel : nat) (s s' : list ascii) :
  skip_ws s = skip_ws s' -> parse_members fuel s = parse_members fuel s'.
Proof. intros Hs. destruct fuel; [done |]. by rewrite !parse_members_S, Hs. Qed.


(** What [parse_int] accepts starts with a sign or a digit, none of which
    opens another kind of value. *)
Lemma parse_int_starts (c : ascii) (s : list ascii) (n : Z) (r : list ascii) :
  parse_int (c :: s) = Some (n, r) ->
  Ascii.eqb c quote = false /\ Ascii.eqb c "[" = false
  /\ Ascii.eqb c "{" = false /\ Ascii.eqb c "n" = false
  /\ Ascii.eqb c "t" = false /\ Ascii.eqb c "f" = false.
Proof.
  unfold parse_int. destruct (Ascii.eqb c "-") eqn:Hminus.
  - apply Ascii.eqb_eq in Hminus as ->. by intros _.
  - cbn [parse_digits]. destruct (digit_of c) eqn:Hd; [| by destruct s].
    intros _. destruct c as [[] [] [] [] [] [] [] []]; done.
Qed.

(** A number is parsed as a number. *)
Lemma parse_value_number (fuel : nat) (n : Z) (rest : list ascii) :
  stops rest ->
  parse_value (S fuel) (print_int n ++ rest) = Some (PInt n, rest).
Proof.
  intros Hrest. pose proof (parse_int_print n rest Hrest) as Hparse.
  destruct (print_int_head n) as (c & t & Hp & Hc).
  rewrite Hp in *. change ((c :: t) ++ rest) with (c :: (t ++ rest)) in *.
  rewrite parse_value_S. cbn [skip_ws]. rewrite (starts_value_not_ws _ Hc).
  destruct (parse_int_starts c (t ++ rest) n rest Hparse) as (-> & -> & -> & -> & -> & ->).
  by rewrite Hparse.
Qed.

Ltac flatten := repeat (first [rewrite <- app_assoc | progress cbn [app]]).

Lemma parse_items_step (fuel : nat) (x : pyval) (level : nat) (s : list ascii) :
  parses_back x -> (cost x <= fuel)%nat -> stops s ->
  parse_items (S fuel) (print level x ++ s)
  = match skip_ws s with
    | c :: r' =>
        if Ascii.eqb c "," then
          match parse_items fuel r' with
          | Some (l, r'') => Some (x :: l, r'')
          | None => None
          end
        else if Ascii.eqb c "]" then Some ([x], r')
        else None
    | [] => None
    end.
Proof. intros Hx Hfuel Hs. by rewrite parse_items_S, Hx. Qed.

Lemma parse_members_step (fuel : nat) (key : string) (x : pyval)
    (level : nat) (s : list ascii) :
  parses_back x -> (cost x <= fuel)%nat -> stops s ->
  parse_members (S fuel)
    (print_string key ++ ":"%char :: " "%char :: print level x ++ s)
  = match skip_ws s with
    | c :: r' =>
        if Ascii.eqb c "," then
          match parse_members fuel r' with
          | Some (d, r'') => Some ((key, x) :: d, r'')
          | None => None
          end
        else if Ascii.eqb c "}" then Some ([(key, x)], r')
        else None
    | [] => None
    end.
Proof.
  intros Hx Hfuel Hs. rewrite parse_members_S.
  unfold print_string. flatten. cbn [skip_ws].
  change (is_ws quote) with false. cbv iota.
  rewrite Ascii.eqb_refl, parse_chars_print.
  cbn [skip_ws]. change (is_ws ":") with false. cbv iota.
  change (Ascii.eqb ":" ":") with true. cbv iota.
  rewrite (parse_value_skip _ _ (print level x ++ s)) by reflexivity.
  by rewrite Hx.
Qed.

Lemma parse_items_print (l : list pyval) :
  Forall parses_back l ->
  forall (x : pyval) (level k fuel : nat) (rest : list ascii),
    parses_back x ->
    (items_cost (x :: l) <= fuel)%nat ->
    parse_items fuel
      (print level x ++ print_more_items (print level) level l
       ++ newline_indent k ++ "]"%char :: rest)
    = Some (x :: l, rest).
Proof.
  induction 1 as [| y l Hy Hl IH]; intros x level k fuel rest Hx Hfuel;
    (destruct fuel as [| fuel]; [simpl in Hfuel; lia |]); simpl in Hfuel.
  - rewrite parse_items_step by (done || lia).
    cbn [print_more_items app]. by rewrite skip_ws_newline_indent.
  - rewrite parse_items_step by (done || lia).
    change (print_more_items (print level) level (y :: l))
      with (","%char :: newline_indent level ++ print level y
            ++ print_more_items (print level) level l).
    flatten. cbn [skip_ws]. change (is_ws ",") with false. cbv iota.
    change (Ascii.eqb "," ",") with true. cbv iota.
    rewrite (parse_items_skip _ _ (print level y
               ++ print_more_items (print level) level l
               ++ newline_indent k ++ "]"%char :: rest))
      by (by rewrite skip_ws_newline_indent).
    by rewrite IH by (done || simpl; lia).
Qed.

Lemma parse_members_print (d : list (string * pyval)) :
  Forall (fun kv => parses_back kv.2) d ->
  forall (key : string) (x : pyval) (level k fuel : nat) (rest : list ascii),
    parses_back x ->
    (members_cost ((key, x) :: d) <= fuel)%nat ->
    parse_members fuel
      (print_string key ++ ":"%char :: " "%char :: print level x
       ++ print_more_members (print level) level d
       ++ newline_indent k ++ "}"%char :: rest)
    = Some ((key, x) :: d, rest).
Proof.
  induction 1 as [| [key' y] d Hy Hd IH];
    intros key x level k fuel rest Hx Hfuel;
    (destruct fuel as [| fuel]; [simpl in Hfuel; lia |]); simpl in Hfuel.
  - rewrite parse_members_step by (done || lia).
    cbn [print_more_members app]. by rewrite skip_ws_newline_indent.
  - rewrite parse_members_step by (done || lia).
    change (print_more_members (print level) level ((key', y) :: d))
      with (","%char :: newline_indent level ++ print_string key'
            ++ ":"%char :: " "%char :: print level y
            ++ print_more_members (print level) level d).
    flatten. cbn [skip_ws]. change (is_ws ",") with false. cbv iota.
    change (Ascii.eqb "," ",") with true. cbv iota.
    rewrite (parse_members_skip _ _ (print_string key'
               ++ ":"%char :: " "%char :: print level y
               ++ print_more_members (print level) level d
               ++ newline_indent k ++ "}"%char :: rest))
      by (by rewrite skip_ws_newline_indent).
    by rewrite IH by (done || simpl in *; lia).
Qed.

Lemma parse_print (v : pyval) : parses_back v.
Proof.
  induction v as [| b | n | s | l IH | d IH] using pyval_nested_ind;
    intros level fuel rest Hfuel Hrest;
    (destruct fuel as [| fuel]; [simpl in Hfuel; lia |]).
  - reflexivity.
  - by destruct b.
  - by apply parse_value_number.
  - rewrite parse_value_S. unfold print, print_string. flatten.
    cbn [skip_ws]. change (is_ws quote) with false. cbv iota.
    by rewrite Ascii.eqb_refl, parse_chars_print.
  - destruct IH as [| x l Hx Hl]; [reflexivity |].
    rewrite parse_value_S.
    change (print level (PList (x :: l)))
      with ("["%char :: newline_indent (S level) ++ print (S level) x
            ++ print_more_items (print (S level)) (S level) l
            ++ newline_indent level ++ ["]"%char]).
    flatten. cbn [skip_ws]. change (is_ws "[") with false. cbv iota.
    change (Ascii.eqb "[" quote) with false.
    change (Ascii.eqb "[" "[") with true. cbv iota.
    rewrite skip_ws_newline_indent, skip_ws_print.
    rewrite (parse_items_skip _ _ (print (S level) x
               ++ print_more_items (print (S level)) (S level) l
               ++ newline_indent level ++ "]"%char :: rest))
      by (by rewrite skip_ws_newline_indent).
    destruct (print_head x (S level)) as (c & t & Hp & Hc).
    rewrite Hp at 1. cbn [app].
    rewrite (proj1 (starts_value_not_closing _ Hc)).
    by rewrite parse_items_print
      by (done || unfold items_cost; simpl in *; lia).
  - destruct IH as [| [key x] d Hx Hd]; [reflexivity |].
    rewrite parse_value_S.
    change (print level (PDict ((key, x) :: d)))
      with ("{"%char :: newline_indent (S level) ++ print_string key
            ++ ":"%char :: " "%char :: print (S level) x
            ++ print_more_members (print (S level)) (S level) d
            ++ newline_indent level ++ ["}"%char]).
    flatten. cbn [skip_ws]. change (is_ws "{") with false. cbv iota.
    change (Ascii.eqb "{" quote) with false.
    change (Ascii.eqb "{" "[") with false.
    change (Ascii.eqb "{" "{") with true. cbv iota.
    rewrite skip_ws_newline_indent.
    rewrite (parse_members_skip _ _ (print_string key
               ++ ":"%char :: " "%char :: print (S level) x
               ++ print_more_members (print (S level)) (S level) d
               ++ newline_indent level ++ "}"%char :: rest))
      by (by rewrite skip_ws_newline_indent).
    rewrite parse_members_print
      by (done || unfold members_cost; simpl in *; lia).
    unfold print_string. by cbn [app skip_ws].
Qed.

Lemma print_int_nonempty (n : Z) : (1 <= length (print_int n))%nat.
Proof.
  destruct (print_int_head n) as (c & t & -> & _). simpl. lia.
Qed.

Lemma cost_le_length (v : pyval) :
  forall level, (cost v <= length (print level v))%nat.
Proof.
  induction v as [| b | n | s | l IH | d IH] using pyval_nested_ind;
    intros level.
  - simpl. lia.
  - destruct b; simpl; lia.
  - apply print_int_nonempty.
  - simpl. rewrite length_app. simpl. lia.
  - destruct IH as [| x l Hx Hl]; [simpl; lia |].
    change (print level (PList (x :: l)))
      with ("["%char :: newline_indent (S level) ++ print (S level) x
            ++ print_more_items (print (S level)) (S level) l
            ++ newline_indent level ++ ["]"%char]).
    change (cost (PList (x :: l)))
      with (S (S (Nat.max (cost x) (items_cost l)))).
    assert (items_cost l
            <= length (print_more_items (print (S level)) (S level) l))%nat.
    { induction Hl as [| y l Hy Hl IHl]; [simpl; lia |].
      change (items_cost (y :: l)) with (S (Nat.max (cost y) (items_cost l))).
      cbn [print_more_items]. cbn [length]. rewrite !length_app.
      specialize (Hy (S level)). lia. }
    cbn [length]. rewrite !length_app. cbn [length newline_indent].
    specialize (Hx (S level)). lia.
  - destruct IH as [| [key x] d Hx Hd]; [simpl; lia |].
    change (print level (PDict ((key, x) :: d)))
      with ("{"%char :: newline_indent (S level) ++ print_string key
            ++ ":"%char :: " "%char :: print (S level) x
            ++ print_more_members (print (S level)) (S level) d
            ++ newline_indent level ++ ["}"%char]).
    change (cost (PDict ((key, x) :: d)))
      with (S (S (Nat.max (cost x) (members_cost d)))).
    assert (members_cost d
            <= length (print_more_members (print (S level)) (S level) d))%nat.
    { induction Hd as [| [key' y] d Hy Hd IHd]; [simpl; lia |].
      change (members_cost ((key', y) :: d))
        with (S (Nat.max (cost y) (members_cost d))).
      cbn [print_more_members]. cbn [length]. rewrite !length_app.
      cbn [length]. rewrite !length_app.
      specialize (Hy (S level)). simpl in Hy. lia. }
    cbn [length]. rewrite !length_app. cbn [length]. rewrite !length_app.
    cbn [length newline_indent].
    specialize (Hx (S level)). simpl in Hx. lia.
Qed.

(** Loading what was dumped gives the value back. *)
Lemma loads_dumps (v : pyval) : loads (dumps v) = Some v.
Proof.
  unfold loads, dumps. rewrite list_ascii_of_string_of_list_ascii.
  pose proof (parse_print v 0 (length (print 0 v)) []
                (cost_le_length v 0) I) as Hparse.
  rewrite app_nil_r in Hparse. by rewrite Hparse.
Qed.

End JsonFacts.

(** ** The reading store and the endpoints *)

Lemma dict_set_timestamp (reading : TarotReading.t) :
  dict_set "timestamp" (PStr (TarotReading.timestamp reading))
           (TarotReading.dict reading)
  = TarotReading.dict reading.
Proof. reflexivity. Qed.

Lemma random_randint_run (a b : Z) (w : World) :
  random_randint a b w
  = (Return (a + Z.of_nat (entropy w (taken w) mod Z.to_nat (b - a + 1)))%Z,
     ticks 1 w).
Proof. reflexivity. Qed.

Lemma bind_Return {A B} (m : M A) (k : A -> M B) (w w' : World) (a : A) :
  m w = (Return a, w') -> bind m k w = k a w'.
Proof. intros Hm. unfold bind. by rewrite Hm. Qed.

Section ServiceProperties.
Context `{PyRuntime}.

Lemma save_reading_run (reading : TarotReading.t) (w : World) :
  let path := reading_file_of (TarotReading.reading_id reading) in
  save_reading reading w
  = if decide (path ∈ unwritable w) then (Raise (OSError path), w)
    else (Return path,
          set_file path (json_dumps (PDict (TarotReading.dict reading))) w).
Proof.
  unfold save_reading, try_except, bind, write_file.
  rewrite dict_set_timestamp. simpl. by case_decide.
Qed.

Lemma get_reading_missing (reading_id : string) (w : World) :
  files w !! reading_file_of reading_id = None ->
  get_reading reading_id w
  = (Raise (HTTPException 500
              (exc_str (HTTPException 404 "Reading not found"))), w).
Proof.
  intros Hnone. unfold get_reading, try_except, bind, path_exists.
  rewrite Hnone. rewrite bool_decide_eq_false_2 by (by intros [? ?]).
  reflexivity.
Qed.

Lemma get_reading_stored (reading_id text : string) (v : pyval) (w : World) :
  files w !! reading_file_of reading_id = Some text ->
  json_loads text = Some v ->
  get_reading reading_id w = (Return (PDict [ ("reading", v) ]), w).
Proof.
  intros Hfile Hload. unfold get_reading, try_except, bind, path_exists, read_file.
  rewrite Hfile. rewrite bool_decide_eq_true_2 by done. simpl.
  by rewrite Hfile, Hload.
Qed.

Lemma create_reading_unknown (request : ReadingRequest.t) (w : World) :
  TAROT_SPREADS !! ReadingRequest.spread_type request = None ->
  create_reading request w
  = (Raise (HTTPException 500
              (exc_str (HTTPException 400
                          ("Unknown spread type: "
                           +:+ ReadingRequest.spread_type request)))), w).
Proof.
  intros Hnone. unfold create_reading, try_except.
  unfold bind at 1. by rewrite (spread_registered_false _ Hnone).
Qed.

(** A run of [create_reading] on a registered spread type: the reading is
    built from a draw of the card count of the spread, and the outcome is
    decided by whether its file can be written. *)
Lemma create_reading_run (request : ReadingRequest.t)
    (spread : TarotSpread.t) (w : World) :
  TAROT_SPREADS !! ReadingRequest.spread_type request = Some spread ->
  exists reading n,
    TarotReading.spread_type reading = ReadingRequest.spread_type request /\
    TarotReading.question reading = ReadingRequest.question request /\
    Z.of_nat (length (TarotReading.cards_drawn reading))
    = TarotSpread.card_count spread /\
    TarotReading.timestamp reading = now_utc w /\
    let path := reading_file_of (TarotReading.reading_id reading) in
    create_reading request w
    = if decide (path ∈ unwritable w)
      then (Raise (HTTPException 500 (exc_str (OSError path))), ticks n w)
      else (Return (response_of reading),
            set_file path (json_dumps (PDict (TarotReading.dict reading)))
                     (ticks n w)).
Proof.
  intros Hs.
  destruct (card_count_within_catalog _ _ Hs) as [Hlo Hhi].
  destruct (draw_cards_spec (TarotSpread.card_count spread)
              (ReadingRequest.include_reversed request) w Hlo)
    as (cards & Hdraw & Hlen & _ & _).
  unfold create_reading, try_except.
  rewrite (spread_registered_true _ _ Hs). cbn [negb].
  erewrite bind_Return by reflexivity.
  erewrite bind_Return by (unfold lift, spread_getitem; by rewrite Hs).
  erewrite bind_Return by exact Hdraw.
  erewrite bind_Return
    by (rewrite get_ai_interpretation_run;
        by rewrite (basic_interpretation_registered _ _ _ _ Hs)).
  erewrite bind_Return by reflexivity.
  erewrite bind_Return by apply random_randint_run.
  erewrite bind_Return by reflexivity.
  rewrite ticks_ticks.
  match goal with |- context [save_reading ?r] => set (reading := r) end.
  match goal with |- context [bind (save_reading reading) _ (ticks ?k w)] =>
    exists reading, k end.
  split; [reflexivity |]. split; [reflexivity |].
  split; [simpl; rewrite length_map, Hlen; unfold clamped; lia |].
  split; [reflexivity |].
  cbv zeta. unfold bind. rewrite save_reading_run. cbv zeta.
  change (unwritable (ticks _ w)) with (unwritable w).
  case_decide; reflexivity.
Qed.

(** With a registered spread type and no path barred from writing, a
    reading is created. *)
Lemma create_reading_succeeds (request : ReadingRequest.t) (w : World) :
  is_Some (TAROT_SPREADS !! ReadingRequest.spread_type request) ->
  unwritable w = ∅ ->
  exists response w', create_reading request w = (Return response, w').
Proof.
  intros [spread Hs] Hfree.
  destruct (create_reading_run request spread w Hs)
    as (reading & n & _ & _ & _ & _ & Hrun).
  cbv zeta in Hrun. rewrite Hfree in Hrun.
  rewrite decide_False in Hrun by set_solver. eauto.
Qed.

(** C5. Every reading that [create_reading] produces holds as many drawn
    cards as the card count of the spread that its spread type names; the
    response carries the reading and its file holds it.  No registered
    spread asks for more cards than the catalog holds, so that the draw
    is never cut short. *)
Theorem reading_holds_card_count_cards
    (request : ReadingRequest.t) (w w' : World) (response : pyval) :
  create_reading request w = (Return response, w') ->
  (exists reading spread,
     response = response_of reading /\
     files w' !! reading_file_of (TarotReading.reading_id reading)
     = Some (json_dumps (PDict (TarotReading.dict reading))) /\
     TAROT_SPREADS !! TarotReading.spread_type reading = Some spread /\
     Z.of_nat (length (TarotReading.cards_drawn reading))
     = TarotSpread.card_count spread) /\
  map_Forall (fun _ spread =>
                clamped (TarotSpread.card_count spread)
                = Z.to_nat (TarotSpread.card_count spread))
             TAROT_SPREADS.
Proof.
  intros Hrun. split.
  - destruct (TAROT_SPREADS !! ReadingRequest.spread_type request)
      as [spread |] eqn:Hs;
      [| by rewrite (create_reading_unknown _ _ Hs) in Hrun].
    destruct (create_reading_run request spread w Hs)
      as (reading & n & Htype & _ & Hcount & _ & Hrun').
    cbv zeta in Hrun'. rewrite Hrun in Hrun'.
    case_decide; [discriminate |]. injection Hrun' as -> ->.
    exists reading, spread. split; [reflexivity |].
    split; [apply lookup_insert_eq |]. by rewrite Htype.
  - intros spread_type spread Hs.
    destruct (card_count_within_catalog _ _ Hs) as [Hlo Hhi].
    unfold clamped. lia.
Qed.

(** Two readings with the same document are the same reading. *)
Lemma reading_dict_inj (r1 r2 : TarotReading.t) :
  TarotReading.dict r1 = TarotReading.dict r2 -> r1 = r2.
Proof.
  destruct r1 as [st1 q1 c1 i1 t1 id1], r2 as [st2 q2 c2 i2 t2 id2].
  unfold TarotReading.dict. simpl. intros Heq.
  injection Heq as -> Hq Hc -> -> ->.
  assert (q1 = q2) as -> by (destruct q1, q2; simpl in Hq; congruence).
  assert (c1 = c2) as ->; [| reflexivity].
  revert c2 Hc. induction c1 as [| x c1 IH]; intros [| y c2] Hc;
    try discriminate; [reflexivity |].
  simpl in Hc. injection Hc as -> Hc. by rewrite (IH _ Hc).
Qed.

(** C9. What was saved is what is loaded: with a JSON codec that reads
    back what it writes, a reading that [save_reading] has saved is
    returned by [get_reading] on its identifier as the document of that
    very reading, every field in place; and the document names no other
    reading. *)
Theorem save_then_get_reading (reading : TarotReading.t)
    (w w' : World) (path : string) :
  json_round_trips ->
  save_reading reading w = (Return path, w') ->
  get_reading (TarotReading.reading_id reading) w'
  = (Return (PDict [ ("reading", PDict (TarotReading.dict reading)) ]), w') /\
  (forall other : TarotReading.t,
     TarotReading.dict other = TarotReading.dict reading -> other = reading).
Proof.
  intros Hcodec Hsave. split; [| intros other; apply reading_dict_inj].
  rewrite save_reading_run in Hsave. cbv zeta in Hsave.
  case_decide; [discriminate |]. injection Hsave as <- <-.
  apply get_reading_stored with
    (text := json_dumps (PDict (TarotReading.dict reading)));
    [apply lookup_insert_eq | apply Hcodec].
Qed.

End ServiceProperties.

(** ** The endpoints on unknown spreads and missing readings *)

(** C1. On the request for the spread type "nonexistent", which the
    catalog does not register, [create_reading] draws and saves nothing,
    but what it raises is the server error 500: the client error 400 that
    it raised first is caught by its own handler and wrapped. *)
Theorem create_reading_nonexistent_is_500 :
  @create_reading reference_runtime (sample_request "nonexistent" true)
                  sample_world
  = (Raise (HTTPException 500 "400: Unknown spread type: nonexistent"),
     sample_world).
Proof. by rewrite create_reading_unknown. Qed.

(** C2. On an identifier under which no file is stored, [get_reading]
    raises the server error 500: the not-found error 404 that it raised
    first is caught by its own handler and wrapped. *)
Theorem get_reading_missing_is_500 :
  @get_reading reference_runtime "reading_20250101_120000_1234" sample_world
  = (Raise (HTTPException 500 "404: Reading not found"), sample_world).
Proof. by rewrite get_reading_missing. Qed.

(** ** The properties at sample inputs *)

Lemma draw_cards_length_distinct_witness :
  exists cards w',
    draw_cards 20 true sample_world = (Return cards, w') /\
    length cards = Z.to_nat (Z.min 20 (Z.of_nat (length get_all_cards))) /\
    NoDup (map drawn_name cards) /\
    Forall (fun d => DrawnCard.card d ∈ get_all_cards) cards.
Proof. apply (draw_cards_length_distinct 20 true sample_world). lia. Defined.

Lemma card_count_is_positions_length_witness :
  TAROT_SPREADS !! "celtic_cross" = Some Spreads.celtic_cross /\
  TarotSpread.card_count Spreads.celtic_cross
  = Z.of_nat (length (TarotSpread.positions Spreads.celtic_cross)).
Proof.
  split; [reflexivity |].
  apply (card_count_is_positions_length "celtic_cross"). reflexivity.
Defined.

Lemma formatter_never_fails_witness :
  _generate_basic_interpretation sample_cards None "single_card"
  = Return (rendered Spreads.single_card sample_cards None) /\
  (forall i, (i < length (TarotSpread.positions Spreads.single_card))%nat ->
             TarotSpread.positions Spreads.single_card !! i
             = Some (label_of Spreads.single_card i)) /\
  (forall i, (length (TarotSpread.positions Spreads.single_card) <= i)%nat ->
             label_of Spreads.single_card i
             = "Position " +:+ str_int (Z.of_nat i + 1)).
Proof.
  apply (formatter_never_fails sample_cards None "single_card"). reflexivity.
Defined.

Lemma ai_interpretation_is_basic_witness :
  exists text,
    _generate_basic_interpretation sample_cards (Some "What now?") "three_card"
    = Return text /\
    get_ai_interpretation sample_cards (Some "What now?") "three_card"
                          sample_world
    = (Return text, sample_world).
Proof.
  apply (ai_interpretation_is_basic sample_cards (Some "What now?")
           "three_card" Spreads.three_card sample_world).
  reflexivity.
Defined.

Lemma reading_holds_card_count_cards_witness :
  exists response w',
    @create_reading reference_runtime (sample_request "three_card" false)
                    sample_world
    = (Return response, w') /\
    (exists reading spread,
       response = response_of reading /\
       files w' !! reading_file_of (TarotReading.reading_id reading)
       = Some (Json.dumps (PDict (TarotReading.dict reading))) /\
       TAROT_SPREADS !! TarotReading.spread_type reading = Some spread /\
       Z.of_nat (length (TarotReading.cards_drawn reading))
       = TarotSpread.card_count spread) /\
    map_Forall (fun _ spread =>
                  clamped (TarotSpread.card_count spread)
                  = Z.to_nat (TarotSpread.card_count spread))
               TAROT_SPREADS.
Proof.
  destruct (@create_reading reference_runtime
              (sample_request "three_card" false) sample_world)
    as [[response | e] w'] eqn:Hrun.
  - exists response, w'. split; [reflexivity |].
    exact (@reading_holds_card_count_cards reference_runtime
             (sample_request "three_card" false) sample_world w' response
             Hrun).
  - vm_compute in Hrun. discriminate Hrun.
Defined.

Lemma save_then_get_reading_witness :
  let path := "/app/readings/reading_20250101_120000_1234.json" in
  let w' :=
    set_file path (Json.dumps (PDict (TarotReading.dict sample_reading)))
             sample_world in
  @save_reading reference_runtime sample_reading sample_world
  = (Return path, w') /\
  @get_reading reference_runtime (TarotReading.reading_id sample_reading) w'
  = (Return (PDict [ ("reading", PDict (TarotReading.dict sample_reading)) ]),
     w') /\
  (forall other : TarotReading.t,
     TarotReading.dict other = TarotReading.dict sample_reading ->
     other = sample_reading).
Proof.
  intros path w'.
  assert (@save_reading reference_runtime sample_reading sample_world
          = (Return path, w')) as Hsave by (vm_compute; reflexivity).
  split; [exact Hsave |].
  exact (@save_then_get_reading reference_runtime sample_reading
           sample_world w' path JsonFacts.loads_dumps Hsave).
Defined.
(** * Further properties *)

(** ** The draw engine *)

Lemma draw_loop_oriented (include_reversed : bool)
    (drawn_cards : list TarotCard.t) :
  forall (result : list DrawnCard.t) (w : World),
    Forall well_oriented result ->
    exists res w',
      draw_loop include_reversed drawn_cards result w = (Return res, w') /\
      Forall well_oriented res.
Proof.
  induction drawn_cards as [| card rest IH]; intros result w Hres.
  - by exists result, w.
  - rewrite draw_loop_cons. unfold bind at 1.
    assert (exists b w1,
              (if include_reversed then random_choice [true; false]
               else ret false) w = (Return b, w1)) as (b & w1 & ->).
    { destruct include_reversed; [| by eauto].
      destruct (random_choice_two true false w) as (b & -> & _). eauto. }
    apply IH. apply Forall_app. split; [exact Hres |].
    constructor; [| constructor]. by destruct b.
Qed.

(** X1. Whether reversals are drawn or not, every card of a draw carries
    the meaning and the orientation label that its reversed flag selects:
    the reversed meaning under "Reversed" when the flag is set, the upright
    meaning under "Upright" when it is not.  The only draw without cards
    to show is the one refused for a negative count. *)
Theorem draw_cards_well_oriented
    (count : Z) (include_reversed : bool) (w : World) :
  match fst (draw_cards count include_reversed w) with
  | Return cards => Forall well_oriented cards
  | Raise _ => (count < 0)%Z
  end.
Proof.
  destruct (Z.lt_ge_cases count 0) as [Hneg | Hpos];
    [by rewrite draw_cards_negative |].
  destruct (draw_cards_spec count include_reversed w Hpos)
    as (cards & Hrun & _).
  rewrite Hrun. simpl.
  unfold draw_cards, bind in Hrun.
  destruct (random_sample get_all_cards _ w) as [[sampled | e] w1];
    [| discriminate].
  destruct (draw_loop_oriented include_reversed sampled [] w1)
    as (res & w' & Hloop & Hall); [constructor |].
  rewrite Hloop in Hrun. by injection Hrun as -> _.
Qed.

(** X2. A negative count is refused: [draw_cards] raises the [ValueError]
    of [random.sample], takes no raw draw and changes nothing. *)
Theorem draw_cards_negative_refused
    (count : Z) (include_reversed : bool) (w : World) :
  (count < 0)%Z ->
  exists msg,
    draw_cards count include_reversed w = (Raise (ValueError msg), w).
Proof. intros Hneg. eexists. by apply draw_cards_negative. Qed.

(** X3. A draw touches nothing but the random source, of which it takes
    one raw draw per card drawn, and one more per card when orientations
    are drawn: the clock and the files are as before. *)
Theorem draw_cards_takes_draws_only
    (count : Z) (include_reversed : bool) (w : World) :
  (0 <= count)%Z ->
  exists cards w',
    draw_cards count include_reversed w = (Return cards, w') /\
    taken w'
    = (taken w + length cards * (if include_reversed then 2 else 1))%nat /\
    entropy w' = entropy w /\
    files w' = files w /\ unwritable w' = unwritable w /\
    now_local w' = now_local w /\ now_utc w' = now_utc w.
Proof.
  intros Hpos.
  destruct (draw_cards_spec count include_reversed w Hpos)
    as (cards & Hrun & Hlen & _).
  exists cards. eexists. split; [exact Hrun |].
  split; [| by repeat split].
  simpl. rewrite Hlen. destruct include_reversed; lia.
Qed.

(** X4. A draw of as many cards as the catalog holds, or of more, deals
    the whole catalog: every card exactly once, in some order. *)
Theorem draw_cards_whole_catalog
    (count : Z) (include_reversed : bool) (w : World) :
  (Z.of_nat (length get_all_cards) <= count)%Z ->
  exists cards w',
    draw_cards count include_reversed w = (Return cards, w') /\
    map DrawnCard.card cards ≡ₚ get_all_cards.
Proof.
  intros Hcount.
  destruct (draw_cards_spec count include_reversed w) as
    (cards & Hrun & Hlen & (rest & Hperm) & _); [lia |].
  exists cards. eexists. split; [exact Hrun |].
  assert (rest = []) as ->; [| by rewrite app_nil_r in Hperm].
  apply Permutation_length in Hperm.
  rewrite length_app, length_map, Hlen in Hperm.
  unfold clamped in Hperm. apply nil_length_inv. lia.
Qed.

(** ** The interpretation formatter *)

Lemma basic_interpretation_no_cards (question : option string)
    (spread_type : string) :
  _generate_basic_interpretation [] question spread_type
  = Return ("Reading for: " +:+ py_or question "General guidance"
            +:+ nl +:+ nl +:+ closing_text).
Proof.
  unfold _generate_basic_interpretation. simpl. f_equal.
  rewrite !string_app_assoc. unfold strip.
  change (lstrip ("Reading for: " +:+ ?s)) with ("Reading for: " +:+ s).
  rewrite <- !string_app_assoc. apply rstrip_app; [done | by vm_compute].
Qed.

(** X5. On a spread type that is not registered the formatter raises
    [KeyError] for that spread type as soon as there is one card to lay
    out; with no card it never looks the spread up, and returns the
    header and the closing paragraph. *)
Theorem formatter_unregistered (cards : list DrawnCard.t)
    (question : option string) (spread_type : string) :
  TAROT_SPREADS !! spread_type = None ->
  _generate_basic_interpretation cards question spread_type
  = match cards with
    | [] => Return ("Reading for: " +:+ py_or question "General guidance"
                    +:+ nl +:+ nl +:+ closing_text)
    | _ :: _ => Raise (KeyError spread_type)
    end.
Proof.
  intros Hnone. destruct cards as [| card_info rest];
    [apply basic_interpretation_no_cards |].
  unfold _generate_basic_interpretation. simpl.
  unfold position_label, spread_getitem. by rewrite Hnone.
Qed.

(** X6. The handler of [get_ai_interpretation] is no way out: it calls the
    formatter again on the same arguments, so that on an unregistered
    spread type with a card to lay out the [KeyError] of the formatter is
    what the caller gets, with the world untouched. *)
Theorem ai_interpretation_unregistered (card_info : DrawnCard.t)
    (rest : list DrawnCard.t) (question : option string)
    (spread_type : string) (w : World) :
  TAROT_SPREADS !! spread_type = None ->
  get_ai_interpretation (card_info :: rest) question spread_type w
  = (Raise (KeyError spread_type), w).
Proof.
  intros Hnone. rewrite get_ai_interpretation_run.
  unfold _generate_basic_interpretation. simpl.
  unfold position_label, spread_getitem. by rewrite Hnone.
Qed.

Lemma concat_strings_app (l1 l2 : list string) :
  concat_strings (l1 ++ l2) = concat_strings l1 +:+ concat_strings l2.
Proof.
  induction l1 as [| s l1 IH]; [reflexivity |].
  simpl. by rewrite IH, string_app_assoc.
Qed.

(** X7. For a registered spread type the text shows every drawn card: the
    card at index [i] has its block in the text, with its label, its
    name, its orientation, its meaning and its correspondence. *)
Theorem formatter_shows_every_card (cards : list DrawnCard.t)
    (question : option string) (spread_type : string)
    (spread : TarotSpread.t) (i : nat) (card_info : DrawnCard.t) :
  TAROT_SPREADS !! spread_type = Some spread ->
  cards !! i = Some card_info ->
  exists before after,
    _generate_basic_interpretation cards question spread_type
    = Return (before
              +:+ (nl +:+ label_of spread i +:+ ": "
                   +:+ TarotCard.name (DrawnCard.card card_info)
                   +:+ " (" +:+ DrawnCard.orientation card_info +:+ ")"
                   +:+ nl +:+ DrawnCard.meaning card_info +:+ nl
                   +:+ "Golden Dawn: "
                   +:+ TarotCard.golden_dawn_correspondence
                         (DrawnCard.card card_info)
                   +:+ nl +:+ nl)
              +:+ after).
Proof.
  intros Hs Hi. rewrite (basic_interpretation_registered _ _ _ _ Hs).
  unfold rendered.
  apply list_elem_of_split_length in Hi as (l1 & l2 & -> & ->).
  rewrite imap_app, imap_cons, !concat_strings_app, Nat.add_0_r.
  cbn [concat_strings foldr].
  exists ("Reading for: " +:+ py_or question "General guidance" +:+ nl +:+ nl
          +:+ concat_strings
                (imap (fun i card_info =>
                         card_block (label_of spread i) card_info) l1)).
  exists (concat_strings
            (imap ((fun n card_info =>
                      card_block (label_of spread (length l1 + n)) card_info)
                   ∘ S) l2)
          +:+ closing_text).
  f_equal. fold (card_block (label_of spread (length l1)) card_info).
  by rewrite !string_app_assoc.
Qed.

(** X8. A question that is absent and a question that is empty give the
    same text, and for a registered spread type that text opens with the
    header for "General guidance". *)
Theorem formatter_default_question (cards : list DrawnCard.t)
    (spread_type : string) (spread : TarotSpread.t) :
  TAROT_SPREADS !! spread_type = Some spread ->
  _generate_basic_interpretation cards (Some EmptyString) spread_type
  = _generate_basic_interpretation cards None spread_type /\
  exists rest,
    _generate_basic_interpretation cards None spread_type
    = Return ("Reading for: General guidance" +:+ nl +:+ nl +:+ rest).
Proof.
  intros Hs. split; [reflexivity |].
  rewrite (basic_interpretation_registered _ _ _ _ Hs).
  unfold rendered.
  exists (concat_strings
            (imap (fun i card_info =>
                     card_block (label_of spread i) card_info) cards)
          +:+ closing_text).
  reflexivity.
Qed.

(** ** The reading store *)

Lemma string_length_app (s t : string) :
  String.length (s +:+ t) = (String.length s + String.length t)%nat.
Proof.
  induction s as [| c s IH]; [reflexivity |].
  rewrite string_app_cons. simpl. by rewrite IH.
Qed.

Lemma string_app_inj_r (s1 s2 t : string) : s1 +:+ t = s2 +:+ t -> s1 = s2.
Proof.
  revert s2. induction s1 as [| a s1 IH]; intros [| b s2] Heq.
  - reflexivity.
  - apply (f_equal String.length) in Heq.
    rewrite !string_length_app in Heq. simpl in Heq. lia.
  - apply (f_equal String.length) in Heq.
    rewrite !string_length_app in Heq. simpl in Heq. lia.
  - rewrite !string_app_cons in Heq. injection Heq as -> Heq.
    by rewrite (IH _ Heq).
Qed.

Lemma has_separator_app (s t : string) :
  has_separator (s +:+ t) = has_separator s || has_separator t.
Proof.
  induction s as [| c s IH]; [reflexivity |].
  rewrite string_app_cons. simpl. by rewrite IH, orb_assoc.
Qed.

Lemma print_uint_plain (u : uint) :
  has_separator (string_of_list_ascii (print_uint u)) = false.
Proof. induction u; simpl; done. Qed.

Lemma str_int_plain (n : Z) : plain (str_int n).
Proof.
  unfold plain, str_int, print_int.
  destruct (Z.to_int n); simpl; apply print_uint_plain.
Qed.

Lemma reading_file_of_plain (reading_id : string) :
  plain reading_id ->
  reading_file_of reading_id = "/app/readings/" +:+ reading_id +:+ ".json".
Proof.
  intros Hplain. unfold reading_file_of, path_join.
  destruct reading_id as [| c s]; [reflexivity |].
  rewrite string_app_cons.
  destruct c as [[] [] [] [] [] [] [] []]; try reflexivity.
  discriminate Hplain.
Qed.

Lemma reading_file_of_plain_inj (id1 id2 : string) :
  plain id1 -> plain id2 ->
  reading_file_of id1 = reading_file_of id2 -> id1 = id2.
Proof.
  intros H1 H2. rewrite !reading_file_of_plain by done.
  intros Heq. apply (inj (String.app "/app/readings/")) in Heq.
  by apply string_app_inj_r in Heq.
Qed.

(** X9. Two identifiers without a path separator are stored in the same
    file only if they are the same identifier: the file of such an
    identifier is the readings directory, the identifier and ".json". *)
Theorem reading_file_of_inj (id1 id2 : string) :
  plain id1 -> plain id2 ->
  reading_file_of id1 = "/app/readings/" +:+ id1 +:+ ".json" /\
  (reading_file_of id1 = reading_file_of id2 -> id1 = id2).
Proof.
  intros H1 H2. split; [by apply reading_file_of_plain |].
  by apply reading_file_of_plain_inj.
Qed.

Section StoreProperties.
Context `{PyRuntime}.

(** X10. When the file of a reading cannot be written, [save_reading]
    raises the error of the write as it is, and no file changes. *)
Theorem save_reading_unwritable (reading : TarotReading.t) (w : World) :
  reading_file_of (TarotReading.reading_id reading) ∈ unwritable w ->
  save_reading reading w
  = (Raise (OSError (reading_file_of (TarotReading.reading_id reading))), w).
Proof.
  intros Hbar. rewrite save_reading_run. cbv zeta. by rewrite decide_True.
Qed.


(** X12. [get_reading] reads and never writes: whatever the identifier
    and the files, the world is unchanged, and the outcome is either the
    stored document under the key "reading" or an [HTTPException] of
    status 500; no other status and no other exception leaves it. *)
Theorem get_reading_outcomes (reading_id : string) (w : World) :
  (exists reading_data,
     get_reading reading_id w
     = (Return (PDict [ ("reading", reading_data) ]), w)) \/
  (exists detail,
     get_reading reading_id w = (Raise (HTTPException 500 detail), w)).
Proof.
  destruct (files w !! reading_file_of reading_id) as [text |] eqn:Hfile.
  - destruct (json_loads text) as [v |] eqn:Hload.
    + left. exists v. by apply get_reading_stored with text.
    + right. eexists. unfold get_reading, try_except, bind, path_exists,
        read_file. rewrite Hfile. rewrite bool_decide_eq_true_2 by done.
      simpl. rewrite Hfile, Hload. reflexivity.
  - right. eexists. by apply get_reading_missing.
Qed.

(** X13. A stored file that is no JSON document makes [get_reading] raise
    the server error 500 that wraps the error of the reader. *)
Theorem get_reading_corrupt (reading_id text : string) (w : World) :
  files w !! reading_file_of reading_id = Some text ->
  json_loads text = None ->
  exists msg,
    get_reading reading_id w
    = (Raise (HTTPException 500 (exc_str (ValueError msg))), w).
Proof.
  intros Hfile Hload. eexists.
  unfold get_reading, try_except, bind, path_exists, read_file.
  rewrite Hfile. rewrite bool_decide_eq_true_2 by done.
  simpl. rewrite Hfile, Hload. reflexivity.
Qed.


(** X15. Of two readings saved under the same identifier the later one
    wins: it is what [get_reading] returns, and the earlier one is gone. *)
Theorem save_overwrites (first second : TarotReading.t)
    (w w1 w2 : World) (path1 path2 : string) :
  json_round_trips ->
  TarotReading.reading_id first = TarotReading.reading_id second ->
  save_reading first w = (Return path1, w1) ->
  save_reading second w1 = (Return path2, w2) ->
  get_reading (TarotReading.reading_id first) w2
  = (Return (stored_document second), w2).
Proof.
  intros Hcodec Hid Hfirst Hsecond. rewrite Hid.
  rewrite save_reading_run in Hsecond. cbv zeta in *.
  case_decide; [discriminate |]. injection Hsecond as <- <-.
  apply get_reading_stored with
    (text := json_dumps (PDict (TarotReading.dict second))); [| apply Hcodec].
  apply lookup_insert_eq.
Qed.

End StoreProperties.

(** ** The creation of readings *)

(** What a draw of a non-negative count gives, for the endpoint. *)
Lemma draw_cards_facts (count : Z) (include_reversed : bool) (w : World) :
  (0 <= count)%Z ->
  exists cards,
    draw_cards count include_reversed w
    = (Return cards, ticks (draws_taken count include_reversed) w) /\
    length cards = clamped count /\
    NoDup (map drawn_name cards) /\
    Forall well_oriented cards /\
    (include_reversed = false -> Forall upright cards).
Proof.
  intros Hpos.
  destruct (draw_cards_spec count include_reversed w Hpos)
    as (cards & Hrun & Hlen & (rest & Hperm) & Hup).
  exists cards. split; [exact Hrun |]. split; [exact Hlen |].
  split; [| split; [| exact Hup]].
  - pose proof card_names_distinct as Hnd.
    rewrite <- Hperm, map_app in Hnd. apply NoDup_app in Hnd as [Hnd _].
    unfold drawn_name. by rewrite <- (list_fmap_compose DrawnCard.card) in Hnd.
  - unfold draw_cards, bind in Hrun.
    destruct (random_sample get_all_cards _ w) as [[sampled | e] w1];
      [| discriminate].
    destruct (draw_loop_oriented include_reversed sampled [] w1)
      as (res & w' & Hloop & Hall); [constructor |].
    rewrite Hloop in Hrun. by injection Hrun as -> _.
Qed.

Lemma Return_pair_inv {A} (a b : A) (w w' : World) :
  (Return a, w) = (Return b, w') -> a = b /\ w = w'.
Proof. intros Heq. by injection Heq. Qed.

Lemma response_of_inj (r1 r2 : TarotReading.t) :
  response_of r1 = response_of r2 -> r1 = r2.
Proof.
  unfold response_of. intros Heq. apply reading_dict_inj.
  congruence.
Qed.

Lemma reading_of_plain (request : ReadingRequest.t)
    (spread : TarotSpread.t) (cards : list DrawnCard.t) (suffix : Z)
    (w : World) :
  plain (now_local w) ->
  plain (TarotReading.reading_id (reading_of request spread cards suffix w)).
Proof.
  intros Hstamp. unfold plain, reading_of. simpl.
  rewrite !has_separator_app, Hstamp, (str_int_plain suffix). reflexivity.
Qed.

Section EndpointProperties.
Context `{PyRuntime}.

(** A run of [create_reading] on a registered spread type, in full: the
    cards are those of a draw of the card count of the spread, the suffix
    of the identifier is a number of four digits, and the outcome is
    decided by whether the file of the reading can be written. *)
Lemma create_reading_outcome (request : ReadingRequest.t)
    (spread : TarotSpread.t) (w : World) :
  TAROT_SPREADS !! ReadingRequest.spread_type request = Some spread ->
  let count := TarotSpread.card_count spread in
  let include_reversed := ReadingRequest.include_reversed request in
  exists cards suffix,
    draw_cards count include_reversed w
    = (Return cards, ticks (draws_taken count include_reversed) w) /\
    (1000 <= suffix <= 9999)%Z /\
    let reading := reading_of request spread cards suffix w in
    let path := reading_file_of (TarotReading.reading_id reading) in
    let w' := ticks (draws_taken count include_reversed + 1) w in
    create_reading request w
    = if decide (path ∈ unwritable w)
      then (Raise (HTTPException 500 (exc_str (OSError path))), w')
      else (Return (response_of reading),
            set_file path (json_dumps (PDict (TarotReading.dict reading)))
                     w').
Proof.
  intros Hs count include_reversed.
  destruct (card_count_within_catalog _ _ Hs) as [Hlo Hhi].
  destruct (draw_cards_spec count include_reversed w Hlo)
    as (cards & Hdraw & _).
  fold (draws_taken count include_reversed) in Hdraw.
  set (w1 := ticks (draws_taken count include_reversed) w) in *.
  exists cards,
    (1000 + Z.of_nat (entropy w1 (taken w1) mod Z.to_nat (9999 - 1000 + 1)))%Z.
  split; [exact Hdraw |]. split.
  { pose proof (Nat.mod_upper_bound (entropy w1 (taken w1))
                  (Z.to_nat (9999 - 1000 + 1))). lia. }
  unfold create_reading, try_except.
  rewrite (spread_registered_true _ _ Hs). cbn [negb].
  erewrite bind_Return by reflexivity.
  erewrite bind_Return by (unfold lift, spread_getitem; by rewrite Hs).
  erewrite bind_Return by exact Hdraw.
  erewrite bind_Return
    by (rewrite get_ai_interpretation_run;
        by rewrite (basic_interpretation_registered _ _ _ _ Hs)).
  erewrite bind_Return by reflexivity.
  erewrite bind_Return by apply random_randint_run.
  erewrite bind_Return by reflexivity.
  unfold w1. rewrite ticks_ticks. fold w1.
  cbv zeta. unfold bind. rewrite save_reading_run. cbv zeta.
  change (unwritable (ticks _ w)) with (unwritable w).
  repeat case_decide; first [reflexivity | exfalso; auto].
Qed.

(** X16. [create_reading] fails in one way only: whatever goes wrong, an
    unknown spread type or a file that cannot be written, what leaves it
    is an [HTTPException] of status 500, and no file has changed. *)
Theorem create_reading_fails_with_500
    (request : ReadingRequest.t) (w w' : World) (e : exn) :
  create_reading request w = (Raise e, w') ->
  (exists detail, e = HTTPException 500 detail) /\
  files w' = files w.
Proof.
  destruct (TAROT_SPREADS !! ReadingRequest.spread_type request)
    as [spread |] eqn:Hs.
  - destruct (create_reading_outcome request spread w Hs)
      as (cards & suffix & _ & _ & Hrun).
    cbv zeta in Hrun. rewrite Hrun.
    case_decide; [| discriminate].
    intros Heq. injection Heq as <- <-. by eauto.
  - rewrite (create_reading_unknown _ _ Hs).
    intros Heq. injection Heq as <- <-. by eauto.
Qed.

(** X17. With every file writable, [create_reading] returns a reading
    exactly for the requests whose spread type is registered. *)
Theorem create_reading_returns_iff_registered
    (request : ReadingRequest.t) (w : World) :
  unwritable w = ∅ ->
  (exists response w', create_reading request w = (Return response, w'))
  <-> is_Some (TAROT_SPREADS !! ReadingRequest.spread_type request).
Proof.
  intros Hfree. split.
  - intros (response & w' & Hrun).
    destruct (TAROT_SPREADS !! ReadingRequest.spread_type request)
      as [spread |] eqn:Hs; [by eauto |].
    by rewrite (create_reading_unknown _ _ Hs) in Hrun.
  - intros [spread Hs].
    destruct (create_reading_outcome request spread w Hs)
      as (cards & suffix & _ & _ & Hrun).
    cbv zeta in Hrun. rewrite Hfree in Hrun.
    rewrite decide_False in Hrun by set_solver. eauto.
Qed.

(** X18. The reading that [create_reading] returns repeats the spread
    type and the question of the request, is stamped with the UTC time of
    the request, and is named "reading_", the local time of the request,
    "_" and a number from 1000 to 9999; the message of the response ends
    in that name. *)
Theorem create_reading_names_the_reading
    (request : ReadingRequest.t) (w w' : World) (response : pyval) :
  create_reading request w = (Return response, w') ->
  exists reading suffix,
    response
    = PDict [ ("success", PBool true);
              ("reading", PDict (TarotReading.dict reading));
              ("message",
               PStr ("Reading completed successfully: "
                     +:+ TarotReading.reading_id reading)) ] /\
    (1000 <= suffix <= 9999)%Z /\
    TarotReading.reading_id reading
    = "reading_" +:+ now_local w +:+ "_" +:+ str_int suffix /\
    TarotReading.timestamp reading = now_utc w /\
    TarotReading.spread_type reading = ReadingRequest.spread_type request /\
    TarotReading.question reading = ReadingRequest.question request.
Proof.
  intros Hrun.
  destruct (TAROT_SPREADS !! ReadingRequest.spread_type request)
    as [spread |] eqn:Hs;
    [| by rewrite (create_reading_unknown _ _ Hs) in Hrun].
  destruct (create_reading_outcome request spread w Hs)
    as (cards & suffix & _ & Hsuffix & Hrun').
  cbv zeta in Hrun'. rewrite Hrun in Hrun'.
  case_decide; [discriminate |]. injection Hrun' as -> _.
  exists (reading_of request spread cards suffix w), suffix.
  split; [reflexivity |]. split; [exact Hsuffix |]. by repeat split.
Qed.

(** X19. The reading that [create_reading] returns is a whole one: its
    cards are the drawn cards of a draw, as many as the spread counts,
    with pairwise distinct names, each with the meaning and the label of
    its orientation, and all upright when the request bars reversals; its
    interpretation is the text of the formatter for those very cards, the
    question and the spread type of the request. *)
Theorem create_reading_is_whole
    (request : ReadingRequest.t) (w w' : World) (reading : TarotReading.t) :
  create_reading request w = (Return (response_of reading), w') ->
  exists cards spread,
    TAROT_SPREADS !! ReadingRequest.spread_type request = Some spread /\
    TarotReading.cards_drawn reading = map DrawnCard.dict cards /\
    Z.of_nat (length cards) = TarotSpread.card_count spread /\
    NoDup (map drawn_name cards) /\
    Forall well_oriented cards /\
    (ReadingRequest.include_reversed request = false ->
     Forall upright cards) /\
    _generate_basic_interpretation cards (ReadingRequest.question request)
      (ReadingRequest.spread_type request)
    = Return (TarotReading.interpretation reading).
Proof.
  intros Hrun.
  destruct (TAROT_SPREADS !! ReadingRequest.spread_type request)
    as [spread |] eqn:Hs;
    [| by rewrite (create_reading_unknown _ _ Hs) in Hrun].
  destruct (create_reading_outcome request spread w Hs)
    as (cards & suffix & Hdraw & _ & Hrun').
  cbv zeta in Hrun'. rewrite Hrun in Hrun'.
  case_decide; [discriminate |].
  apply Return_pair_inv in Hrun' as [Hresp _].
  apply response_of_inj in Hresp as ->.
  destruct (card_count_within_catalog _ _ Hs) as [Hlo Hhi].
  destruct (draw_cards_facts (TarotSpread.card_count spread)
              (ReadingRequest.include_reversed request) w Hlo)
    as (cards' & Hdraw' & Hlen & Hnd & Hor & Hup).
  rewrite Hdraw in Hdraw'. injection Hdraw' as <-.
  exists cards, spread. split; [reflexivity |]. split; [reflexivity |].
  split; [rewrite Hlen; unfold clamped; lia |].
  split; [exact Hnd |]. split; [exact Hor |]. split; [exact Hup |].
  by rewrite (basic_interpretation_registered _ _ _ _ Hs).
Qed.

(** X20. A reading that [create_reading] has returned can be fetched: with
    a JSON codec that reads back what it writes, [get_reading] on the
    identifier of the reading returns its document, right after the
    creation. *)
Theorem create_then_get_reading
    (request : ReadingRequest.t) (w w' : World) (reading : TarotReading.t) :
  json_round_trips ->
  create_reading request w = (Return (response_of reading), w') ->
  get_reading (TarotReading.reading_id reading) w'
  = (Return (stored_document reading), w').
Proof.
  intros Hcodec Hrun.
  destruct (TAROT_SPREADS !! ReadingRequest.spread_type request)
    as [spread |] eqn:Hs;
    [| by rewrite (create_reading_unknown _ _ Hs) in Hrun].
  destruct (create_reading_outcome request spread w Hs)
    as (cards & suffix & _ & _ & Hrun').
  cbv zeta in Hrun'. rewrite Hrun in Hrun'.
  case_decide; [discriminate |].
  apply Return_pair_inv in Hrun' as [Hresp ->].
  apply response_of_inj in Hresp as ->.
  apply get_reading_stored with
    (text := json_dumps (PDict (TarotReading.dict
               (reading_of request spread cards suffix w))));
    [apply lookup_insert_eq | apply Hcodec].
Qed.

(** What a creation that returned has done to the files and the clock. *)
Lemma create_reading_files
    (request : ReadingRequest.t) (w w' : World) (reading : TarotReading.t) :
  create_reading request w = (Return (response_of reading), w') ->
  (plain (now_local w) -> plain (TarotReading.reading_id reading)) /\
  now_local w' = now_local w /\
  files w'
  = <[reading_file_of (TarotReading.reading_id reading)
      := json_dumps (PDict (TarotReading.dict reading))]> (files w).
Proof.
  intros Hrun.
  destruct (TAROT_SPREADS !! ReadingRequest.spread_type request)
    as [spread |] eqn:Hs;
    [| by rewrite (create_reading_unknown _ _ Hs) in Hrun].
  destruct (create_reading_outcome request spread w Hs)
    as (cards & suffix & _ & _ & Hrun').
  cbv zeta in Hrun'. rewrite Hrun in Hrun'.
  case_decide; [discriminate |].
  apply Return_pair_inv in Hrun' as [Hresp ->].
  apply response_of_inj in Hresp as ->.
  split; [apply reading_of_plain | by split].
Qed.


(** X22. A reading outlives later creations under other identifiers: with
    a clock whose local stamp holds no path separator, after a second
    creation whose reading has another identifier, [get_reading] still
    returns the first reading for the first identifier. *)
Theorem later_reading_keeps_earlier
    (request1 request2 : ReadingRequest.t) (w w1 w2 : World)
    (first second : TarotReading.t) :
  json_round_trips ->
  plain (now_local w) ->
  create_reading request1 w = (Return (response_of first), w1) ->
  create_reading request2 w1 = (Return (response_of second), w2) ->
  TarotReading.reading_id first <> TarotReading.reading_id second ->
  get_reading (TarotReading.reading_id first) w2
  = (Return (stored_document first), w2).
Proof.
  intros Hcodec Hstamp Hrun1 Hrun2 Hne.
  destruct (create_reading_files _ _ _ _ Hrun1) as (Hplain1 & Hclock & Hfiles1).
  destruct (create_reading_files _ _ _ _ Hrun2) as (Hplain2 & _ & Hfiles2).
  rewrite Hclock in Hplain2.
  apply get_reading_stored with
    (text := json_dumps (PDict (TarotReading.dict first))); [| apply Hcodec].
  rewrite Hfiles2, Hfiles1.
  rewrite lookup_insert_ne; [apply lookup_insert_eq |].
  intros Heq. apply Hne. symmetry.
  apply reading_file_of_plain_inj; auto.
Qed.

(** X23. Identifiers can collide, and then the later reading replaces the
    earlier one: after two creations whose readings have the same
    identifier, [get_reading] returns the second reading for it. *)
Theorem later_reading_replaces_same_id
    (request1 request2 : ReadingRequest.t) (w w1 w2 : World)
    (first second : TarotReading.t) :
  json_round_trips ->
  create_reading request1 w = (Return (response_of first), w1) ->
  create_reading request2 w1 = (Return (response_of second), w2) ->
  TarotReading.reading_id first = TarotReading.reading_id second ->
  get_reading (TarotReading.reading_id first) w2
  = (Return (stored_document second), w2).
Proof.
  intros Hcodec Hrun1 Hrun2 Hid. rewrite Hid.
  destruct (create_reading_files _ _ _ _ Hrun2) as (_ & _ & Hfiles2).
  apply get_reading_stored with
    (text := json_dumps (PDict (TarotReading.dict second))); [| apply Hcodec].
  rewrite Hfiles2. apply lookup_insert_eq.
Qed.

End EndpointProperties.

(** ** The further properties at sample inputs *)

Lemma sample_run_first :
  @create_reading reference_runtime (sample_request "three_card" false)
                  sample_world
  = (Return (response_of first_reading), after_first).
Proof. vm_compute. reflexivity. Qed.

Lemma sample_run_second :
  @create_reading reference_runtime (asking "And then?" "single_card")
                  after_first
  = (Return (response_of second_reading), after_second).
Proof. vm_compute. reflexivity. Qed.

Lemma sample_run_stuck_first :
  @create_reading reference_runtime (asking "One" "single_card") stuck_world
  = (Return (response_of stuck_first), after_stuck_first).
Proof. vm_compute. reflexivity. Qed.

Lemma sample_run_stuck_second :
  @create_reading reference_runtime (asking "Two" "single_card")
                  after_stuck_first
  = (Return (response_of stuck_second), after_stuck_second).
Proof. vm_compute. reflexivity. Qed.

Lemma draw_cards_negative_refused_witness :
  exists msg, draw_cards (-1) true sample_world
              = (Raise (ValueError msg), sample_world).
Proof. apply (draw_cards_negative_refused (-1) true sample_world). lia. Defined.

Lemma draw_cards_takes_draws_only_witness :
  exists cards w',
    draw_cards 3 true sample_world = (Return cards, w') /\
    taken w' = (taken sample_world + length cards * 2)%nat /\
    entropy w' = entropy sample_world /\
    files w' = files sample_world /\
    unwritable w' = unwritable sample_world /\
    now_local w' = now_local sample_world /\
    now_utc w' = now_utc sample_world.
Proof. apply (draw_cards_takes_draws_only 3 true sample_world). lia. Defined.

Lemma draw_cards_whole_catalog_witness :
  exists cards w',
    draw_cards 78 true sample_world = (Return cards, w') /\
    map DrawnCard.card cards ≡ₚ get_all_cards.
Proof.
  apply (draw_cards_whole_catalog 78 true sample_world). vm_compute.
  discriminate.
Defined.

Lemma formatter_unregistered_witness :
  _generate_basic_interpretation sample_cards None "nonexistent"
  = match sample_cards with
    | [] => Return ("Reading for: " +:+ py_or None "General guidance"
                    +:+ nl +:+ nl +:+ closing_text)
    | _ :: _ => Raise (KeyError "nonexistent")
    end.
Proof.
  apply (formatter_unregistered sample_cards None "nonexistent").
  reflexivity.
Defined.

Lemma ai_interpretation_unregistered_witness :
  get_ai_interpretation sample_hand None "nonexistent" sample_world
  = (Raise (KeyError "nonexistent"), sample_world).
Proof.
  exact (ai_interpretation_unregistered _ _ None "nonexistent" sample_world
           eq_refl).
Defined.

Lemma formatter_shows_every_card_witness :
  exists card_info,
    sample_cards !! 1%nat = Some card_info /\
    exists before after,
      _generate_basic_interpretation sample_cards None "single_card"
      = Return (before
                +:+ (nl +:+ label_of Spreads.single_card 1 +:+ ": "
                     +:+ TarotCard.name (DrawnCard.card card_info)
                     +:+ " (" +:+ DrawnCard.orientation card_info +:+ ")"
                     +:+ nl +:+ DrawnCard.meaning card_info +:+ nl
                     +:+ "Golden Dawn: "
                     +:+ TarotCard.golden_dawn_correspondence
                           (DrawnCard.card card_info)
                     +:+ nl +:+ nl)
                +:+ after).
Proof.
  destruct (sample_cards !! 1%nat) as [card_info |] eqn:Hcard.
  - exists card_info. split; [reflexivity |].
    apply (formatter_shows_every_card sample_cards None "single_card"
             Spreads.single_card 1 card_info); [reflexivity | exact Hcard].
  - vm_compute in Hcard. discriminate Hcard.
Defined.

Lemma formatter_default_question_witness :
  _generate_basic_interpretation sample_cards (Some EmptyString) "three_card"
  = _generate_basic_interpretation sample_cards None "three_card" /\
  exists rest,
    _generate_basic_interpretation sample_cards None "three_card"
    = Return ("Reading for: General guidance" +:+ nl +:+ nl +:+ rest).
Proof.
  apply (formatter_default_question sample_cards "three_card"
           Spreads.three_card).
  reflexivity.
Defined.

Lemma reading_file_of_inj_witness :
  reading_file_of "reading_20250101_120000_1234"
  = "/app/readings/" +:+ "reading_20250101_120000_1234" +:+ ".json" /\
  (reading_file_of "reading_20250101_120000_1234"
   = reading_file_of "reading_20250101_120000_1234" ->
   "reading_20250101_120000_1234" = "reading_20250101_120000_1234").
Proof.
  apply (reading_file_of_inj "reading_20250101_120000_1234"
           "reading_20250101_120000_1234"); reflexivity.
Defined.

Lemma save_reading_unwritable_witness :
  @save_reading reference_runtime other_reading barred_world
  = (Raise (OSError (reading_file_of
                       (TarotReading.reading_id other_reading))),
     barred_world).
Proof.
  apply (@save_reading_unwritable reference_runtime other_reading
           barred_world).
  vm_compute. reflexivity.
Defined.


Lemma get_reading_corrupt_witness :
  exists msg,
    @get_reading reference_runtime "broken" corrupt_world
    = (Raise (HTTPException 500 (reference_exc_str (ValueError msg))),
       corrupt_world).
Proof.
  apply (@get_reading_corrupt reference_runtime "broken" "{ not json"
           corrupt_world); vm_compute; reflexivity.
Defined.


Lemma save_overwrites_witness :
  let w1 :=
    set_file "/app/readings/reading_20250101_120000_1234.json"
             (Json.dumps (PDict (TarotReading.dict sample_reading)))
             sample_world in
  let w2 :=
    set_file "/app/readings/reading_20250101_120000_1234.json"
             (Json.dumps (PDict (TarotReading.dict revised_reading))) w1 in
  @get_reading reference_runtime (TarotReading.reading_id sample_reading) w2
  = (Return (stored_document revised_reading), w2).
Proof.
  intros w1 w2.
  apply (@save_overwrites reference_runtime sample_reading revised_reading
           sample_world w1 w2
           "/app/readings/reading_20250101_120000_1234.json"
           "/app/readings/reading_20250101_120000_1234.json").
  - exact JsonFacts.loads_dumps.
  - reflexivity.
  - vm_compute. reflexivity.
  - vm_compute. reflexivity.
Defined.

Lemma sample_run_barred :
  @create_reading reference_runtime (sample_request "three_card" false)
                  barred_world
  = (Raise (HTTPException 500
              "[Errno 13] Permission denied: '/app/readings/reading_20250101_120000_1024.json'"),
     ticks 4 barred_world).
Proof. vm_compute. reflexivity. Qed.

Lemma create_reading_fails_with_500_witness :
  (exists detail,
     HTTPException 500
       "[Errno 13] Permission denied: '/app/readings/reading_20250101_120000_1024.json'"
     = HTTPException 500 detail) /\
  files (ticks 4 barred_world) = files barred_world.
Proof.
  exact (@create_reading_fails_with_500 reference_runtime
           (sample_request "three_card" false) barred_world
           (ticks 4 barred_world) _ sample_run_barred).
Defined.

Lemma create_reading_returns_iff_registered_witness :
  (exists response w',
     @create_reading reference_runtime (sample_request "three_card" false)
                     sample_world
     = (Return response, w'))
  <-> is_Some (TAROT_SPREADS !! "three_card").
Proof.
  apply (@create_reading_returns_iff_registered reference_runtime
           (sample_request "three_card" false) sample_world).
  reflexivity.
Defined.

Lemma create_reading_names_the_reading_witness :
  exists reading suffix,
    response_of first_reading
    = PDict [ ("success", PBool true);
              ("reading", PDict (TarotReading.dict reading));
              ("message",
               PStr ("Reading completed successfully: "
                     +:+ TarotReading.reading_id reading)) ] /\
    (1000 <= suffix <= 9999)%Z /\
    TarotReading.reading_id reading
    = "reading_" +:+ now_local sample_world +:+ "_" +:+ str_int suffix /\
    TarotReading.timestamp reading = now_utc sample_world /\
    TarotReading.spread_type reading = "three_card" /\
    TarotReading.question reading = None.
Proof.
  exact (@create_reading_names_the_reading reference_runtime
           (sample_request "three_card" false) sample_world after_first
           (response_of first_reading) sample_run_first).
Defined.

Lemma create_reading_is_whole_witness :
  exists cards spread,
    TAROT_SPREADS !! "three_card" = Some spread /\
    TarotReading.cards_drawn first_reading = map DrawnCard.dict cards /\
    Z.of_nat (length cards) = TarotSpread.card_count spread /\
    NoDup (map drawn_name cards) /\
    Forall well_oriented cards /\
    (false = false -> Forall upright cards) /\
    _generate_basic_interpretation cards None "three_card"
    = Return (TarotReading.interpretation first_reading).
Proof.
  exact (@create_reading_is_whole reference_runtime
           (sample_request "three_card" false) sample_world after_first
           first_reading sample_run_first).
Defined.

Lemma create_then_get_reading_witness :
  @get_reading reference_runtime (TarotReading.reading_id first_reading)
               after_first
  = (Return (stored_document first_reading), after_first).
Proof.
  exact (@create_then_get_reading reference_runtime
           (sample_request "three_card" false) sample_world after_first
           first_reading JsonFacts.loads_dumps sample_run_first).
Defined.


Lemma later_reading_keeps_earlier_witness :
  @get_reading reference_runtime (TarotReading.reading_id first_reading)
               after_second
  = (Return (stored_document first_reading), after_second).
Proof.
  apply (@later_reading_keeps_earlier reference_runtime
           (sample_request "three_card" false)
           (asking "And then?" "single_card")
           sample_world after_first after_second
           first_reading second_reading JsonFacts.loads_dumps
           eq_refl sample_run_first sample_run_second).
  vm_compute. discriminate.
Defined.

Lemma later_reading_replaces_same_id_witness :
  @get_reading reference_runtime (TarotReading.reading_id stuck_first)
               after_stuck_second
  = (Return (stored_document stuck_second), after_stuck_second).
Proof.
  apply (@later_reading_replaces_same_id reference_runtime
           (asking "One" "single_card") (asking "Two" "single_card")
           stuck_world after_stuck_first after_stuck_second
           stuck_first stuck_second JsonFacts.loads_dumps
           sample_run_stuck_first sample_run_stuck_second).
  vm_compute. reflexivity.
Defined.
